(** * Batch position closing of the MetaTrader 5 REST server

    A shallow embedding of [backend/mt5/app/routes/position.py]: the two
    batch-close handlers [close_all_positions_endpoint] (thread pool, one
    unit of work per open position) and [close_positions_batch_endpoint]
    (a loop over the tickets of the request body), together with the part
    of the MetaTrader5 package they call.

    Conventions.
    - Python values that end up in a JSON body are terms of [value]; a
      [dict] literal is an association list in the order of the source.
    - Python [float] is IEEE binary64, which is what [PrimFloat.float] is;
      the handlers never compute with prices, they only copy them.
    - The terminal is an abstract state machine ([Terminal]): every call of
      the MetaTrader5 package takes the terminal state and returns a reply
      and the next state.  The package reports failure by returning [None];
      its calls are modelled as never raising.
    - The thread pool is the interleaving of its workers' calls to the
      terminal: a schedule names the worker that moves next, and
      [as_completed] yields the finished futures in an order of its own.
    - A ticket of a request body is whatever JSON value the client sent.
    - [logger] calls have no effect on the response and are left out. *)

From Stdlib Require Import ZArith String List Lia PrimFloat Permutation.
From Stdlib Require Import Ascii DecimalString.
From Stdlib Require Uint63.
From stdpp Require Import base list.

Set Warnings "-inexact-float,-register-all".
Open Scope string_scope.
Open Scope list_scope.
Open Scope Z_scope.

(** ** Values *)

Inductive value : Type :=
| VNone
| VBool (b : bool)
| VInt (n : Z)
| VFloat (x : float)
| VStr (s : string)
| VList (l : list value)
| VDict (d : list (string * value)).

(** [d[k]] / [k in d] on a dict held as an association list. *)
Fixpoint dict_get (k : string) (d : list (string * value)) : option value :=
  match d with
  | [] => None
  | (k', v) :: d' => if String.eqb k k' then Some v else dict_get k d'
  end.

(** Python truth value of a parsed JSON document ([not data]). *)
Definition truthy (v : value) : bool :=
  match v with
  | VNone => false
  | VBool b => b
  | VInt n => negb (n =? 0)
  | VFloat x => negb (PrimFloat.eqb x 0%float)
  | VStr s => negb (String.eqb s EmptyString)
  | VList l => match l with [] => false | _ => true end
  | VDict d => match d with [] => false | _ => true end
  end.

(** [v == s] for a string literal [s]. *)
Definition eq_str (v : value) (s : string) : bool :=
  match v with
  | VStr t => String.eqb t s
  | _ => false
  end.

Inductive Exn : Type :=
| AttributeError (msg : string)
| TypeError (msg : string)
| ValueError (msg : string)
| KeyError (msg : string).

(** [str(e)] *)
Definition str_exn (e : Exn) : string :=
  match e with
  | AttributeError m | TypeError m | ValueError m | KeyError m => m
  end.

(** ** The MetaTrader5 package *)

Module mt5.
Definition ORDER_TYPE_BUY : Z := 0.
Definition ORDER_TYPE_SELL : Z := 1.
Definition POSITION_TYPE_BUY : Z := 0.
Definition POSITION_TYPE_SELL : Z := 1.
Definition TRADE_ACTION_DEAL : Z := 1.
Definition ORDER_TIME_GTC : Z := 0.
Definition ORDER_FILLING_FOK : Z := 0.
Definition ORDER_FILLING_IOC : Z := 1.
Definition TRADE_RETCODE_DONE : Z := 10009.
End mt5.

(** The fields of [TradePosition] that the handlers read. *)
Record TradePosition : Type := {
  pos_ticket : Z;
  pos_type : Z;
  pos_magic : Z;
  pos_volume : float;
  pos_symbol : string
}.

Record Tick : Type := { bid : float; ask : float }.

(** The request dict passed to [order_send], key by key. *)
Record TradeRequest : Type := {
  req_action : Z;
  req_symbol : string;
  req_volume : float;
  req_type : Z;
  req_position : Z;
  req_price : float;
  req_deviation : Z;
  req_magic : Z;
  req_comment : string;
  req_type_time : Z;
  req_type_filling : Z
}.

Record OrderSendResult : Type := {
  retcode : Z;
  deal : Z;
  order : Z;
  res_volume : float;
  res_price : float;
  res_bid : float;
  res_ask : float;
  comment : string;
  request_id : Z;
  retcode_external : Z;
  res_request : TradeRequest
}.

Definition request_value (r : TradeRequest) : value :=
  VDict [("action", VInt (req_action r)); ("symbol", VStr (req_symbol r));
         ("volume", VFloat (req_volume r)); ("type", VInt (req_type r));
         ("position", VInt (req_position r)); ("price", VFloat (req_price r));
         ("deviation", VInt (req_deviation r)); ("magic", VInt (req_magic r));
         ("comment", VStr (req_comment r)); ("type_time", VInt (req_type_time r));
         ("type_filling", VInt (req_type_filling r))].

(** [result._asdict()] *)
Definition asdict (r : OrderSendResult) : value :=
  VDict [("retcode", VInt (retcode r)); ("deal", VInt (deal r));
         ("order", VInt (order r)); ("volume", VFloat (res_volume r));
         ("price", VFloat (res_price r)); ("bid", VFloat (res_bid r));
         ("ask", VFloat (res_ask r)); ("comment", VStr (comment r));
         ("request_id", VInt (request_id r));
         ("retcode_external", VInt (retcode_external r));
         ("request", request_value (res_request r))].

(** The terminal behind the package: a state and one transition per call.
    [last_error] is the text Python prints for the returned pair. *)
Record Terminal : Type := {
  tstate : Type;
  initialize : tstate -> bool * tstate;
  shutdown : tstate -> tstate;
  last_error : tstate -> string;
  positions_get : tstate -> option (list TradePosition) * tstate;
  positions_get_ticket : value -> tstate -> option (list TradePosition) * tstate;
  symbol_info_tick : string -> tstate -> option Tick * tstate;
  order_send : TradeRequest -> tstate -> option OrderSendResult * tstate
}.

(** Calls made to the package, in the order they happen. *)
Inductive Call : Type :=
| CInitialize
| CShutdown
| CLastError
| CPositionsGet
| CPositionsGetTicket (ticket : value)
| CSymbolInfoTick (symbol : string)
| COrderSend (request : TradeRequest).


Definition is_close_call (c : Call) : bool :=
  match c with
  | CSymbolInfoTick _ | COrderSend _ => true
  | _ => false
  end.

Record Response : Type := { body : value; status : Z }.

(** [jsonify(v), code]; a bare [jsonify(v)] is sent with 200. *)
Definition jsonify (v : value) (code : Z) : Response := {| body := v; status := code |}.

Definition error_body (msg : string) : value := VDict [("error", VStr msg)].

Section Handlers.

Variable T : Terminal.

(** The process: the terminal and the log of the calls made so far. *)
Record World : Type := { term : tstate T; calls : list Call }.

Definition M (A : Type) : Type := World -> A * World.

Definition ret {A} (a : A) : M A := fun w => (a, w).

Definition bind {A B} (m : M A) (k : A -> M B) : M B :=
  fun w => let (a, w') := m w in k a w'.

Notation "x <- m ;; k" := (bind m (fun x => k))
  (at level 100, m at next level, right associativity).

Definition call {A} (c : Call) (op : tstate T -> A * tstate T) : M A :=
  fun w => let (a, s) := op (term w) in
           (a, {| term := s; calls := calls w ++ [c] |}).

Definition mt5_initialize : M bool := call CInitialize (initialize T).

Definition mt5_shutdown : M unit :=
  call CShutdown (fun s => (tt, shutdown T s)).

Definition mt5_last_error : M string :=
  call CLastError (fun s => (last_error T s, s)).

Definition mt5_positions_get : M (option (list TradePosition)) :=
  call CPositionsGet (positions_get T).

Definition mt5_positions_get_ticket (ticket : value) : M (option (list TradePosition)) :=
  call (CPositionsGetTicket ticket) (positions_get_ticket T ticket).

Definition mt5_symbol_info_tick (symbol : string) : M (option Tick) :=
  call (CSymbolInfoTick symbol) (symbol_info_tick T symbol).

Definition mt5_order_send (request : TradeRequest) : M (option OrderSendResult) :=
  call (COrderSend request) (order_send T request).

(** ** [close_positions_batch_endpoint] *)

Definition batch_order_type (position_info : TradePosition) : Z :=
  if pos_type position_info =? mt5.ORDER_TYPE_BUY
  then mt5.ORDER_TYPE_SELL else mt5.ORDER_TYPE_BUY.

Definition batch_price (order_type : Z) (tick : Tick) : float :=
  if order_type =? mt5.ORDER_TYPE_SELL then bid tick else ask tick.

Definition batch_close_request (position_info : TradePosition) (order_type : Z)
    (price : float) : TradeRequest :=
  {| req_action := mt5.TRADE_ACTION_DEAL;
     req_position := pos_ticket position_info;
     req_symbol := pos_symbol position_info;
     req_volume := pos_volume position_info;
     req_type := order_type;
     req_price := price;
     req_deviation := 20;
     req_magic := 0;
     req_comment := "Batch Close";
     req_type_time := mt5.ORDER_TIME_GTC;
     req_type_filling := mt5.ORDER_FILLING_FOK |}.

Definition not_found_entry (ticket : value) : value :=
  VDict [("ticket", ticket); ("error", VStr "Position not found.")].

Definition no_price_entry (ticket : value) (symbol : string) : value :=
  VDict [("ticket", ticket);
         ("error", VStr (String.append "Failed to get price for symbol " symbol))].

Definition success_entry (ticket : value) (result : OrderSendResult) : value :=
  VDict [("ticket", ticket); ("result", asdict result)].

(** The [else] branch after [order_send]: [result] is [None] or not done. *)
Definition send_failed_entry (ticket : value) (result : option OrderSendResult) : value :=
  let error_message :=
    match result with Some r => comment r | None => "order_send returned None" end in
  VDict [("ticket", ticket); ("error", VStr error_message);
         ("result", match result with Some r => asdict r | None => VNone end)].

(** The two lists the loop appends to. *)
Record Lists : Type := { successful_closes : list value; failed_closes : list value }.

Definition add_success (v : value) (acc : Lists) : Lists :=
  {| successful_closes := successful_closes acc ++ [v];
     failed_closes := failed_closes acc |}.

Definition add_failure (v : value) (acc : Lists) : Lists :=
  {| successful_closes := successful_closes acc;
     failed_closes := failed_closes acc ++ [v] |}.

(** One iteration of [for ticket in tickets_to_close]. *)
Definition batch_iteration (ticket : value) (acc : Lists) : M Lists :=
  position_info_tuple <- mt5_positions_get_ticket ticket ;;
  match position_info_tuple with
  | None | Some [] => ret (add_failure (not_found_entry ticket) acc)
  | Some (position_info :: _) =>
      let order_type := batch_order_type position_info in
      tick <- mt5_symbol_info_tick (pos_symbol position_info) ;;
      match tick with
      | None => ret (add_failure (no_price_entry ticket (pos_symbol position_info)) acc)
      | Some tick =>
          let price := batch_price order_type tick in
          let close_request := batch_close_request position_info order_type price in
          result <- mt5_order_send close_request ;;
          match result with
          | Some r =>
              if retcode r =? mt5.TRADE_RETCODE_DONE
              then ret (add_success (success_entry ticket r) acc)
              else ret (add_failure (send_failed_entry ticket result) acc)
          | None => ret (add_failure (send_failed_entry ticket result) acc)
          end
      end
  end.

Fixpoint batch_loop (tickets_to_close : list value) (acc : Lists) : M Lists :=
  match tickets_to_close with
  | [] => ret acc
  | ticket :: rest => acc' <- batch_iteration ticket acc ;; batch_loop rest acc'
  end.

Definition batch_report (acc : Lists) : value :=
  VDict [("message", VStr "Batch close operation completed.");
         ("successful_closes", VList (successful_closes acc));
         ("failed_closes", VList (failed_closes acc))].

Definition internal_server_error : Response :=
  jsonify (error_body "Internal server error") 500.

Definition tickets_required : Response :=
  jsonify (error_body "A JSON array of 'tickets' is required.") 400.

(** ['tickets' in data] for a truthy [data]; raises on a number or [true]. *)
Definition has_tickets (data : value) : Exn + bool :=
  match data with
  | VDict d => inr (match dict_get "tickets" d with Some _ => true | None => false end)
  | VList l => inr (existsb (fun v => eq_str v "tickets") l)
  | VStr s => inr (match String.index 0 "tickets" s with Some _ => true | None => false end)
  | _ => inl (TypeError "argument is not iterable")
  end.

(** [data['tickets']]; raises unless [data] is a dict. *)
Definition get_tickets (data : value) : Exn + value :=
  match data with
  | VDict d => match dict_get "tickets" d with
               | Some v => inr v
               | None => inl (TypeError "'tickets'")
               end
  | _ => inl (TypeError "indices must be integers")
  end.

Definition close_positions_batch_endpoint (data : value) : M Response :=
  if negb (truthy data) then ret tickets_required else
  match has_tickets data with
  | inl _ => ret internal_server_error
  | inr false => ret tickets_required
  | inr true =>
      match get_tickets data with
      | inl _ => ret internal_server_error
      | inr (VList tickets_to_close) =>
          acc <- batch_loop tickets_to_close
                   {| successful_closes := []; failed_closes := [] |} ;;
          ret (jsonify (batch_report acc) 200)
      | inr _ => ret tickets_required
      end
  end.

(** ** [close_all_positions_endpoint] *)

Definition all_order_type (pos : TradePosition) : Z :=
  if pos_type pos =? mt5.POSITION_TYPE_BUY
  then mt5.ORDER_TYPE_SELL else mt5.ORDER_TYPE_BUY.

Definition all_order_request (pos : TradePosition) (order_type : Z)
    (price : float) : TradeRequest :=
  {| req_action := mt5.TRADE_ACTION_DEAL;
     req_symbol := pos_symbol pos;
     req_volume := pos_volume pos;
     req_type := order_type;
     req_position := pos_ticket pos;
     req_price := price;
     req_deviation := 10;
     req_magic := pos_magic pos;
     req_comment := "Closed by API";
     req_type_time := mt5.ORDER_TIME_GTC;
     req_type_filling := mt5.ORDER_FILLING_IOC |}.

Definition closed_outcome (pos : TradePosition) : value :=
  VDict [("status", VStr "closed"); ("ticket", VInt (pos_ticket pos))].

Definition rejected_outcome (pos : TradePosition) (code : Z) : value :=
  VDict [("status", VStr "failed"); ("ticket", VInt (pos_ticket pos));
         ("symbol", VStr (pos_symbol pos)); ("error", VInt code)].

(** The [except Exception as e] branch of the worker. *)
Definition raised_outcome (pos : TradePosition) (e : Exn) : value :=
  VDict [("status", VStr "failed"); ("ticket", VInt (pos_ticket pos));
         ("error", VStr (str_exn e))].

(** Reading attribute [attr] of [None]. *)
Definition none_has_no (attr : string) : Exn :=
  AttributeError
    (String.append "'NoneType' object has no attribute '" (String.append attr "'")).

(** The worker up to the computation of [price]: one call to the terminal. *)
Definition quote_phase (pos : TradePosition) : M (Exn + float) :=
  let order_type := all_order_type pos in
  tick <- mt5_symbol_info_tick (pos_symbol pos) ;;
  match tick with
  | Some t => ret (inr (if order_type =? mt5.ORDER_TYPE_SELL then bid t else ask t))
  | None =>
      ret (inl (none_has_no (if order_type =? mt5.ORDER_TYPE_SELL then "bid" else "ask")))
  end.

(** The rest of the worker: [order_send] and the test of [result.retcode]. *)
Definition submit_phase (pos : TradePosition) (price : float) : M (Exn + value) :=
  result <- mt5_order_send (all_order_request pos (all_order_type pos) price) ;;
  match result with
  | Some r =>
      if retcode r =? mt5.TRADE_RETCODE_DONE
      then ret (inr (closed_outcome pos))
      else ret (inr (rejected_outcome pos (retcode r)))
  | None => ret (inl (none_has_no "retcode"))
  end.

Definition handled (pos : TradePosition) (r : Exn + value) : value :=
  match r with
  | inl e => raised_outcome pos e
  | inr v => v
  end.

(** The nested [close_position(pos)], run without interruption. *)
Definition close_position (pos : TradePosition) : M value :=
  q <- quote_phase pos ;;
  match q with
  | inl e => ret (raised_outcome pos e)
  | inr price => s <- submit_phase pos price ;; ret (handled pos s)
  end.

(** [ThreadPoolExecutor(max_workers=n)] *)
Definition ThreadPoolExecutor (max_workers : Z) : Exn + nat :=
  if max_workers <=? 0
  then inl (ValueError "max_workers must be greater than 0")
  else inr (Z.to_nat max_workers).

(** A submitted call: waiting for a worker, between its two calls to the
    terminal, or done. *)
Inductive Future : Type :=
| Pending (pos : TradePosition)
| Running (pos : TradePosition) (price : float)
| Finished (result : value).

Definition is_running (f : Future) : bool :=
  match f with Running _ _ => true | _ => false end.

Definition in_flight (fs : list Future) : nat := length (List.filter is_running fs).

(** The worker of [f] runs up to its next call to the terminal.  A pending
    call starts only while fewer than [max_workers] calls are in flight. *)
Definition advance (max_workers : nat) (fs : list Future) (f : Future) : M Future :=
  match f with
  | Pending pos =>
      if (in_flight fs <? max_workers)%nat then
        q <- quote_phase pos ;;
        match q with
        | inl e => ret (Finished (raised_outcome pos e))
        | inr price => ret (Running pos price)
        end
      else ret f
  | Running pos price => s <- submit_phase pos price ;; ret (Finished (handled pos s))
  | Finished _ => ret f
  end.

Definition step_pool (max_workers : nat) (i : nat) (fs : list Future) : M (list Future) :=
  match fs !! i with
  | Some f => f' <- advance max_workers fs f ;; ret (<[i := f']> fs)
  | None => ret fs
  end.

(** The interleaving of the workers: [sched] names the future whose worker
    moves next. *)
Fixpoint run_schedule (max_workers : nat) (sched : list nat) (fs : list Future)
    : M (list Future) :=
  match sched with
  | [] => ret fs
  | i :: rest => fs' <- step_pool max_workers i fs ;; run_schedule max_workers rest fs'
  end.

Fixpoint mapM {A B} (f : A -> M B) (l : list A) : M (list B) :=
  match l with
  | [] => ret []
  | a :: l' => b <- f a ;; bs <- mapM f l' ;; ret (b :: bs)
  end.

Definition finish_running (f : Future) : M Future :=
  match f with
  | Running pos price => s <- submit_phase pos price ;; ret (Finished (handled pos s))
  | _ => ret f
  end.

(** [future.result()] once the worker has been given the time it needs. *)
Definition finish (f : Future) : M value :=
  match f with
  | Pending pos => close_position pos
  | Running pos price => s <- submit_phase pos price ;; ret (handled pos s)
  | Finished v => ret v
  end.

(** Leaving the schedule, every worker still runs to its end: the calls in
    flight first, then the pending ones one after the other. *)
Definition drain (fs : list Future) : M (list value) :=
  fs' <- mapM finish_running fs ;; mapM finish fs'.

(** [as_completed(futures)]: each pick takes one of the remaining futures. *)
Fixpoint as_completed {A} (picks : list nat) (fs : list A) : list A :=
  match picks with
  | [] => fs
  | p :: ps =>
      match fs !! (p mod length fs)%nat with
      | Some f => f :: as_completed ps (delete (p mod length fs)%nat fs)
      | None => fs
      end
  end.

Record Report : Type := { closed : list value; failed : list value }.

(** [result[key]] *)
Definition subscript (result : value) (key : string) : Exn + value :=
  match result with
  | VDict d => match dict_get key d with
               | Some v => inr v
               | None => inl (KeyError key)
               end
  | _ => inl (TypeError "not subscriptable")
  end.

(** The body of [for future in as_completed(futures)]. *)
Definition collect (result : value) (acc : Report) : Exn + Report :=
  match subscript result "status" with
  | inl e => inl e
  | inr st =>
      if eq_str st "closed" then
        match subscript result "ticket" with
        | inl e => inl e
        | inr t => inr {| closed := closed acc ++ [t]; failed := failed acc |}
        end
      else inr {| closed := closed acc; failed := failed acc ++ [result] |}
  end.

Fixpoint collect_loop (results : list value) (acc : Report) : Exn + Report :=
  match results with
  | [] => inr acc
  | r :: rest =>
      match collect r acc with
      | inl e => inl e
      | inr acc' => collect_loop rest acc'
      end
  end.

Definition report_body (acc : Report) : value :=
  VDict [("closed", VList (closed acc)); ("failed", VList (failed acc))].

(** [magic] is the query parameter of the request, [sched] the interleaving
    of the workers and [order] the order in which [as_completed] yields. *)
Definition close_all_positions_endpoint (magic : option Z) (sched order : list nat)
    : M Response :=
  ok <- mt5_initialize ;;
  if negb ok then
    e <- mt5_last_error ;;
    ret (jsonify (error_body (String.append "MT5 initialize failed: " e)) 500)
  else
    positions <- mt5_positions_get ;;
    match positions with
    | None =>
        _ <- mt5_shutdown ;;
        e <- mt5_last_error ;;
        ret (jsonify (error_body (String.append "positions_get failed: " e)) 500)
    | Some positions =>
        match ThreadPoolExecutor (Z.of_nat (length positions)) with
        | inl _ => ret internal_server_error
        | inr max_workers =>
            fs <- run_schedule max_workers sched (map Pending positions) ;;
            results <- drain fs ;;
            match collect_loop (as_completed order results)
                    {| closed := []; failed := [] |} with
            | inl _ => ret internal_server_error
            | inr acc => _ <- mt5_shutdown ;; ret (jsonify (report_body acc) 200)
            end
        end
    end.

End Handlers.


Arguments term {T} _.
Arguments calls {T} _.
Arguments ret {T A} _ _.
Arguments bind {T A B} _ _ _.

(** ** Reading a response *)

(** The ticket an entry of a response list is about. *)
Definition ticket_of (entry : value) : value :=
  match subscript entry "ticket" with
  | inr t => t
  | inl _ => VNone
  end.

Definition no_lists : Lists := {| successful_closes := []; failed_closes := [] |}.

Definition merge (a b : Lists) : Lists :=
  {| successful_closes := successful_closes a ++ successful_closes b;
     failed_closes := failed_closes a ++ failed_closes b |}.

Definition no_report : Report := {| closed := []; failed := [] |}.

(** [dealt l a b]: the items of [l] are dealt, one by one and in order,
    to [a] or to [b]. *)
Inductive dealt {A : Type} : list A -> list A -> list A -> Prop :=
| dealt_nil : dealt [] [] []
| dealt_left x l a b : dealt l a b -> dealt (x :: l) (x :: a) b
| dealt_right x l a b : dealt l a b -> dealt (x :: l) a (x :: b).

(** The three results a worker of [close_all_positions_endpoint] can have
    for [pos]. *)
Inductive outcome_for (pos : TradePosition) : value -> Prop :=
| outcome_closed : outcome_for pos (closed_outcome pos)
| outcome_rejected code :
    code <> mt5.TRADE_RETCODE_DONE -> outcome_for pos (rejected_outcome pos code)
| outcome_raised e : outcome_for pos (raised_outcome pos e).

(** What the future submitted for [pos] can be. *)
Inductive tracks (pos : TradePosition) : Future -> Prop :=
| tracks_pending : tracks pos (Pending pos)
| tracks_running price : tracks pos (Running pos price)
| tracks_finished v : outcome_for pos v -> tracks pos (Finished v).

(** [result["status"] == "closed"] *)
Definition is_closed (result : value) : bool :=
  match subscript result "status" with
  | inr st => eq_str st "closed"
  | inl _ => false
  end.

Definition is_failed (result : value) : bool := negb (is_closed result).

(** A failure entry that carries the terminal's comment as its error and
    the raw result. *)
Definition carries_comment_and_result (entry : value) (r : OrderSendResult) : Prop :=
  subscript entry "error" = inr (VStr (comment r)) /\
  subscript entry "result" = inr (asdict r).

Inductive Side : Type := Buy | Sell.

Definition opposite (s : Side) : Side :=
  match s with Buy => Sell | Sell => Buy end.

(** The side a position type or an order type stands for (the package
    numbers both alike). *)
Definition side_of (type : Z) : option Side :=
  if type =? mt5.ORDER_TYPE_BUY then Some Buy
  else if type =? mt5.ORDER_TYPE_SELL then Some Sell
  else None.

(** The price a market order of side [s] is filled at. *)
Definition quoted (s : Side) (tick : Tick) : float :=
  match s with Sell => bid tick | Buy => ask tick end.



(** ** A terminal to run the handlers on

    The account is the list of open positions; a done deal removes the
    position it closes.  The switches make the terminal fail the way the
    handlers have to cope with. *)

Module Demo.

Record state : Type := {
  connected : bool;
  listing : bool;
  link : bool;
  open_positions : list TradePosition;
  quotes : list (string * Tick);
  refused : list Z;
  error_text : string
}.

Definition TRADE_RETCODE_REJECT : Z := 10006.

Fixpoint quote_of (symbol : string) (qs : list (string * Tick)) : option Tick :=
  match qs with
  | [] => None
  | (s, t) :: qs' => if String.eqb symbol s then Some t else quote_of symbol qs'
  end.

Definition has_ticket (t : Z) (p : TradePosition) : bool := pos_ticket p =? t.

Definition without (t : Z) (s : state) : state :=
  {| connected := connected s; listing := listing s; link := link s;
     open_positions := List.filter (fun p => negb (has_ticket t p)) (open_positions s);
     quotes := quotes s; refused := refused s; error_text := error_text s |}.

Definition answer (code : Z) (text : string) (r : TradeRequest) : OrderSendResult :=
  {| retcode := code; deal := req_position r; order := req_position r;
     res_volume := req_volume r; res_price := req_price r;
     res_bid := req_price r; res_ask := req_price r; comment := text;
     request_id := 1; retcode_external := 0; res_request := r |}.

Definition send (r : TradeRequest) (s : state) : option OrderSendResult * state :=
  if negb (link s) then (None, s)
  else if existsb (Z.eqb (req_position r)) (refused s)
          || negb (existsb (has_ticket (req_position r)) (open_positions s))
  then (Some (answer TRADE_RETCODE_REJECT "Request rejected" r), s)
  else (Some (answer mt5.TRADE_RETCODE_DONE "Request executed" r),
        without (req_position r) s).

Definition lookup_ticket (ticket : value) (s : state)
    : option (list TradePosition) * state :=
  match ticket with
  | VInt t => (Some (List.filter (has_ticket t) (open_positions s)), s)
  | _ => (None, s)
  end.

Definition terminal : Terminal :=
  {| tstate := state;
     initialize := fun s => (connected s, s);
     shutdown := fun s => s;
     last_error := error_text;
     positions_get := fun s => (if listing s then Some (open_positions s) else None, s);
     positions_get_ticket := lookup_ticket;
     symbol_info_tick := fun symbol s => (quote_of symbol (quotes s), s);
     order_send := send |}.

Definition boot (s : state) : World terminal := Build_World terminal s [].

Definition buy (ticket magic : Z) (symbol : string) : TradePosition :=
  {| pos_ticket := ticket; pos_type := mt5.POSITION_TYPE_BUY; pos_magic := magic;
     pos_volume := 1%float; pos_symbol := symbol |}.

Definition sell (ticket magic : Z) (symbol : string) : TradePosition :=
  {| pos_ticket := ticket; pos_type := mt5.POSITION_TYPE_SELL; pos_magic := magic;
     pos_volume := 1%float; pos_symbol := symbol |}.

Definition eurusd : Tick := {| bid := 1.1000%float; ask := 1.1002%float |}.

Definition account (ps : list TradePosition) : state :=
  {| connected := true; listing := true; link := true; open_positions := ps;
     quotes := [("EURUSD", eurusd)]; refused := []; error_text := "(1, 'Success')" |}.

(** The market order that closes the bought position [ticket] at the bid. *)
Definition sell_to_close (ticket : Z) : TradeRequest :=
  {| req_action := mt5.TRADE_ACTION_DEAL; req_symbol := "EURUSD";
     req_volume := 1%float; req_type := mt5.ORDER_TYPE_SELL;
     req_position := ticket; req_price := 1.1000%float; req_deviation := 20;
     req_magic := 0; req_comment := "Batch Close";
     req_type_time := mt5.ORDER_TIME_GTC;
     req_type_filling := mt5.ORDER_FILLING_FOK |}.

Definition refusing (ts : list Z) (s : state) : state :=
  {| connected := connected s; listing := listing s; link := link s;
     open_positions := open_positions s; quotes := quotes s;
     refused := ts; error_text := error_text s |}.

(** The terminal cannot list the positions. *)
Definition blind (s : state) : state :=
  {| connected := connected s; listing := false; link := link s;
     open_positions := open_positions s; quotes := quotes s;
     refused := refused s; error_text := "(-10004, 'No IPC connection')" |}.

(** Orders get no answer. *)
Definition cut (s : state) : state :=
  {| connected := connected s; listing := listing s; link := false;
     open_positions := open_positions s; quotes := quotes s;
     refused := refused s; error_text := error_text s |}.

Definition tickets_body (ts : list Z) : value :=
  VDict [("tickets", VList (map VInt ts))].

End Demo.


(** ** Reading a log *)

Definition is_lookup_call (c : Call) : bool :=
  match c with CPositionsGetTicket _ => true | _ => false end.









(** An order for ticket [t] is in the log. *)
Definition ordered (log : list Call) (t : value) : Prop :=
  exists r, In (COrderSend r) log /\ t = VInt (req_position r).

(** A result that says "closed" has its order in the log. *)
Definition backed (log : list Call) (v : value) : Prop :=
  is_closed v = true -> ordered log (ticket_of v).

Definition future_backed (log : list Call) (f : Future) : Prop :=
  match f with
  | Finished v => backed log v
  | _ => True
  end.

(** ** The token check of the application ([app.py])

    [require_token_globally] runs before every view.  It answers by
    returning (the view then runs), by returning a response (the view
    does not run), or by raising. *)

Inductive Hook : Type :=
| Continue
| Respond (r : Response)
| RaisedIndexError.

Definition public_paths : list string :=
  ["/health"; "/apidocs"; "/apidocs/"; "/flasgger_static/"; "/favicon.ico";
   "/apispec_1.json"].

(** [s.startswith(p)] *)
Definition startswith (s p : string) : bool := String.prefix p s.

(** [s.split(' ')] *)
Fixpoint split_space (s : string) : list string :=
  match s with
  | EmptyString => [EmptyString]
  | String c s' =>
      if Ascii.eqb c " "%char then EmptyString :: split_space s'
      else match split_space s' with
           | [] => [String c EmptyString]
           | word :: words => String c word :: words
           end
  end.

Definition unauthorized : Response := jsonify (error_body "Unauthorized") 401.

(** [path] is [request.path], [authorization] the header of that name if
    the request has one, [MT5_API_TOKEN] the environment variable if set. *)
Definition require_token_globally (path : string) (authorization : option string)
    (MT5_API_TOKEN : option string) : Hook :=
  if existsb (startswith path) public_paths then Continue
  else
    let auth_header :=
      match authorization with Some h => h | None => EmptyString end in
    let token := MT5_API_TOKEN in
    if negb (startswith auth_header "Bearer ") then Respond unauthorized
    else
      match split_space auth_header !! 1%nat with
      | None => RaisedIndexError
      | Some given =>
          match token with
          | Some t => if String.eqb given t then Continue else Respond unauthorized
          | None => Respond unauthorized
          end
      end.

(** A string without a space. *)
Fixpoint spaceless (s : string) : bool :=
  match s with
  | EmptyString => true
  | String c s' => negb (Ascii.eqb c " "%char) && spaceless s'
  end.

(** How the application runs a view behind the hook; an exception of the
    hook becomes the framework's own 500. *)
Definition before_request {T : Terminal} (hook : Hook) (view : M T Response)
    : M T Response :=
  match hook with
  | Continue => view
  | Respond r => ret r
  | RaisedIndexError => ret (jsonify (VStr "Internal Server Error") 500)
  end.

(** [POST /close_all_positions] and [POST /close_positions_batch] as the
    application serves them. *)
Definition post_close_all_positions (T : Terminal) (authorization token : option string)
    (magic : option Z) (sched order : list nat) : M T Response :=
  before_request (require_token_globally "/close_all_positions" authorization token)
    (close_all_positions_endpoint T magic sched order).

Definition post_close_positions_batch (T : Terminal) (authorization token : option string)
    (data : value) : M T Response :=
  before_request (require_token_globally "/close_positions_batch" authorization token)
    (close_positions_batch_endpoint T data).

(** ** The handlers that build their request from the body

    [modify_sl_tp_endpoint] ([routes/position.py]) and
    [send_order_endpoint] ([routes/order.py]) pass a dict of their own to
    [order_send].  [Desk] is the part of the package they call, with the
    request as the dict it is. *)

Module more.
Definition ORDER_TYPE_BUY_STOP_LIMIT : Z := 6.
Definition ORDER_TYPE_SELL_STOP_LIMIT : Z := 7.
Definition TRADE_ACTION_PENDING : Z := 5.
Definition TRADE_ACTION_SLTP : Z := 6.
Definition ORDER_FILLING_RETURN : Z := 2.
End more.

Record Desk : Type := {
  dstate : Type;
  desk_positions_get : Z -> dstate -> option (list TradePosition) * dstate;
  desk_symbol_info_tick : value -> dstate -> option Tick * dstate;
  desk_order_send : list (string * value) -> dstate -> option OrderSendResult * dstate;
  desk_last_error : dstate -> (Z * string) * dstate
}.

Inductive Op : Type :=
| OPositionsGet (ticket : Z)
| OSymbolInfoTick (symbol : value)
| OOrderSend (request : list (string * value))
| OLastError.

Definition is_send (o : Op) : bool :=
  match o with OOrderSend _ => true | _ => false end.

Definition count_sends (log : list Op) : nat := length (List.filter is_send log).

(** [key in data] *)
Definition py_in (key : string) (data : value) : Exn + bool :=
  match data with
  | VDict d => inr (match dict_get key d with Some _ => true | None => false end)
  | VList l => inr (existsb (fun v => eq_str v key) l)
  | VStr s => inr (match String.index 0 key s with Some _ => true | None => false end)
  | _ => inl (TypeError "argument is not iterable")
  end.

(** [data.get(key, default)] *)
Definition py_get (data : value) (key : string) (default : value) : Exn + value :=
  match data with
  | VDict d => inr (match dict_get key d with Some v => v | None => default end)
  | _ => inl (AttributeError "object has no attribute 'get'")
  end.

(** [v or default] *)
Definition py_or (v default : value) : value := if truthy v then v else default.

Definition is_none (v : value) : bool :=
  match v with VNone => true | _ => false end.

(** [v == k] for an integer constant [k] of the package: Python compares
    numbers by value, and a boolean is the number 0 or 1. *)
Definition eq_code (v : value) (k : Z) : bool :=
  match v with
  | VInt n => n =? k
  | VBool b => Z.b2z b =? k
  | VFloat x => PrimFloat.eqb x (PrimFloat.of_uint63 (Uint63.of_Z k))
  | _ => false
  end.

(** [str(n)] *)
Definition str_int (n : Z) : string := NilZero.string_of_int (Z.to_int n).

(** [FILLING_TYPE_MAPPING.get(key, mt5.ORDER_FILLING_IOC)]; a list or a
    dict cannot be hashed. *)
Definition filling_type (key : value) : Exn + Z :=
  match key with
  | VStr name =>
      inr (if String.eqb name "ORDER_FILLING_FOK" then mt5.ORDER_FILLING_FOK
           else if String.eqb name "ORDER_FILLING_IOC" then mt5.ORDER_FILLING_IOC
           else if String.eqb name "ORDER_FILLING_RETURN" then more.ORDER_FILLING_RETURN
           else mt5.ORDER_FILLING_IOC)
  | VList _ | VDict _ => inl (TypeError "unhashable type")
  | _ => inr mt5.ORDER_FILLING_IOC
  end.

(** What a statement of a handler's [try] block does: go on with a value,
    leave the handler with a response, or raise. *)
Inductive Flow (A : Type) : Type :=
| Go (a : A)
| Return (r : Response)
| Raise (e : Exn).

Arguments Go {A} _.
Arguments Return {A} _.
Arguments Raise {A} _.

Section Builders.

Variable D : Desk.

(** Python's [int(...)] and [float(...)] on a value of the body. *)
Variable py_int : value -> Exn + Z.
Variable py_float : value -> Exn + float.

Record Session : Type := { desk : dstate D; ops : list Op }.

Definition H (A : Type) : Type := Session -> Flow A * Session.

Definition go {A} (a : A) : H A := fun s => (Go a, s).

Definition leave {A} (r : Response) : H A := fun s => (Return r, s).

Definition attempt {A} (x : Exn + A) : H A :=
  fun s => (match x with inl e => Raise e | inr a => Go a end, s).

Definition then_ {A B} (m : H A) (k : A -> H B) : H B :=
  fun s => match m s with
           | (Go a, s') => k a s'
           | (Return r, s') => (Return r, s')
           | (Raise e, s') => (Raise e, s')
           end.

Notation "x <~ m ;; k" := (then_ m (fun x => k))
  (at level 100, m at next level, right associativity).

Definition consult {A} (o : Op) (op : dstate D -> A * dstate D) : H A :=
  fun s => let (a, d) := op (desk s) in
           (Go a, {| desk := d; ops := ops s ++ [o] |}).

(** [try: ... except Exception: return 500] *)
Definition handler (block : H Response) : Session -> Response * Session :=
  fun s => match block s with
           | (Go r, s') | (Return r, s') => (r, s')
           | (Raise _, s') => (internal_server_error, s')
           end.

(** [float(data.get(key, 0.0) or 0.0)] *)
Definition level_or_zero (data : value) (key : string) : H float :=
  given <~ attempt (py_get data key (VFloat 0%float)) ;;
  attempt (py_float (py_or given (VFloat 0%float))).

Definition mt5_error_body (msg : string) (code : Z) (text : string) : value :=
  VDict [("error", VStr msg); ("mt5_error_code", VInt code);
         ("mt5_error_message", VStr text)].

(** What both handlers do with the reply of [order_send]. *)
Definition reply_response (no_result failed done : string)
    (result : option OrderSendResult) : H Response :=
  match result with
  | None =>
      e <~ consult OLastError (desk_last_error D) ;;
      leave (jsonify (mt5_error_body no_result (fst e) (snd e)) 400)
  | Some r =>
      let result_dict := asdict r in
      if negb (retcode r =? mt5.TRADE_RETCODE_DONE) then
        leave (jsonify (VDict [("error", VStr (String.append failed (comment r)));
                               ("result", result_dict)]) 400)
      else
        go (jsonify (VDict [("message", VStr done); ("result", result_dict)]) 200)
  end.

Definition modify_sl_tp_endpoint (data : value) : Session -> Response * Session :=
  handler (
    if negb (truthy data) then
      leave (jsonify (error_body "The 'position' ticket number is required") 400)
    else
    present <~ attempt (py_in "position" data) ;;
    if negb present then
      leave (jsonify (error_body "The 'position' ticket number is required") 400)
    else
    position <~ attempt (subscript data "position") ;;
    position_ticket <~ attempt (py_int position) ;;
    sl_price <~ level_or_zero data "sl" ;;
    tp_price <~ level_or_zero data "tp" ;;
    position_info_tuple <~
      consult (OPositionsGet position_ticket) (desk_positions_get D position_ticket) ;;
    match position_info_tuple with
    | None | Some [] =>
        leave (jsonify (error_body
          (String.append "Position with ticket "
             (String.append (str_int position_ticket) " not found."))) 404)
    | Some (position_info :: _) =>
        let request_data :=
          [("action", VInt more.TRADE_ACTION_SLTP);
           ("position", VInt position_ticket);
           ("symbol", VStr (pos_symbol position_info));
           ("sl", VFloat sl_price);
           ("tp", VFloat tp_price)] in
        result <~ consult (OOrderSend request_data) (desk_order_send D request_data) ;;
        reply_response "Failed to modify SL/TP. MT5 returned no result."
          "Failed to modify SL/TP: " "SL/TP modified successfully" result
    end).

(** [all(field in data for field in fields)] *)
Fixpoint all_in (fields : list string) (data : value) : Exn + bool :=
  match fields with
  | [] => inr true
  | field :: rest =>
      match py_in field data with
      | inl e => inl e
      | inr false => inr false
      | inr true => all_in rest data
      end
  end.

(** [if key in data and data[key] is not None: request_data[key] = float(data[key])] *)
Definition optional_level (data : value) (key : string)
    (request_data : list (string * value)) : H (list (string * value)) :=
  present <~ attempt (py_in key data) ;;
  if negb present then go request_data else
  given <~ attempt (subscript data key) ;;
  if is_none given then go request_data else
  x <~ attempt (py_float given) ;;
  go (request_data ++ [(key, VFloat x)]).

Definition send_order_endpoint (data : value) : Session -> Response * Session :=
  handler (
    if negb (truthy data) then
      leave (jsonify (error_body "Request body is required") 400)
    else
    complete <~ attempt (all_in ["symbol"; "volume"; "type"] data) ;;
    if negb complete then
      leave (jsonify (error_body "Missing required fields: symbol, volume, type") 400)
    else
    order_type_mt5 <~ attempt (py_get data "type" VNone) ;;
    if is_none order_type_mt5 then
      leave (jsonify (error_body "Invalid order type: None") 400)
    else
    symbol <~ attempt (subscript data "symbol") ;;
    volume <~ attempt (subscript data "volume") ;;
    volume <~ attempt (py_float volume) ;;
    deviation <~ attempt (py_get data "deviation" (VInt 20)) ;;
    magic <~ attempt (py_get data "magic" (VInt 0)) ;;
    comment <~ attempt (py_get data "comment" (VStr EmptyString)) ;;
    filling <~ attempt (py_get data "type_filling" VNone) ;;
    type_filling <~ attempt (filling_type filling) ;;
    let request_data :=
      [("symbol", symbol); ("volume", VFloat volume); ("type", order_type_mt5);
       ("deviation", deviation); ("magic", magic); ("comment", comment);
       ("type_time", VInt mt5.ORDER_TIME_GTC); ("type_filling", VInt type_filling)] in
    let is_market_order :=
      eq_code order_type_mt5 mt5.ORDER_TYPE_BUY
      || eq_code order_type_mt5 mt5.ORDER_TYPE_SELL in
    let is_stop_limit_order :=
      eq_code order_type_mt5 more.ORDER_TYPE_BUY_STOP_LIMIT
      || eq_code order_type_mt5 more.ORDER_TYPE_SELL_STOP_LIMIT in
    request_data <~
      (if is_market_order then
         let request_data := request_data ++ [("action", VInt mt5.TRADE_ACTION_DEAL)] in
         symbol <~ attempt (subscript data "symbol") ;;
         tick <~ consult (OSymbolInfoTick symbol) (desk_symbol_info_tick D symbol) ;;
         match tick with
         | None => leave (jsonify (error_body "Failed to get symbol price") 400)
         | Some tick =>
             go (request_data ++
                 [("price", VFloat (if eq_code order_type_mt5 mt5.ORDER_TYPE_BUY
                                    then ask tick else bid tick))])
         end
       else
         let request_data := request_data ++ [("action", VInt more.TRADE_ACTION_PENDING)] in
         priced <~ attempt (py_in "price" data) ;;
         if negb priced then
           leave (jsonify (error_body
                    "The 'price' field is required for pending orders") 400)
         else
         price <~ attempt (subscript data "price") ;;
         price <~ attempt (py_float price) ;;
         let request_data := request_data ++ [("price", VFloat price)] in
         if is_stop_limit_order then
           limited <~ attempt (py_in "stoplimit" data) ;;
           if negb limited then
             leave (jsonify (error_body
                      "The 'stoplimit' field is required for STOP_LIMIT orders") 400)
           else
           stoplimit <~ attempt (subscript data "stoplimit") ;;
           stoplimit <~ attempt (py_float stoplimit) ;;
           go (request_data ++ [("price_stoplimit", VFloat stoplimit)])
         else go request_data) ;;
    request_data <~ optional_level data "sl" request_data ;;
    request_data <~ optional_level data "tp" request_data ;;
    result <~ consult (OOrderSend request_data) (desk_order_send D request_data) ;;
    reply_response "Order send failed. MT5 returned no result."
      "Order failed: " "Order executed successfully" result).

End Builders.

Arguments desk {D} _.
Arguments ops {D} _.

(** A desk over the demo account, and the conversions on the numbers the
    examples use (a string is taken not to parse). *)

Module DemoDesk.

Definition echo : TradeRequest := Demo.sell_to_close 0.

Definition reply (code : Z) (text : string) : OrderSendResult :=
  {| retcode := code; deal := 0; order := 0; res_volume := 0%float;
     res_price := 0%float; res_bid := 0%float; res_ask := 0%float;
     comment := text; request_id := 1; retcode_external := 0;
     res_request := echo |}.

Definition send (request : list (string * value)) (s : Demo.state)
    : option OrderSendResult * Demo.state :=
  if negb (Demo.link s) then (None, s)
  else match dict_get "position" request with
       | Some (VInt t) =>
           if existsb (Z.eqb t) (Demo.refused s)
           then (Some (reply Demo.TRADE_RETCODE_REJECT "Request rejected"), s)
           else (Some (reply mt5.TRADE_RETCODE_DONE "Request executed"), s)
       | _ => (Some (reply mt5.TRADE_RETCODE_DONE "Request executed"), s)
       end.

Definition quote (symbol : value) (s : Demo.state) : option Tick * Demo.state :=
  match symbol with
  | VStr name => (Demo.quote_of name (Demo.quotes s), s)
  | _ => (None, s)
  end.

Definition desk : Desk :=
  {| dstate := Demo.state;
     desk_positions_get := fun t s =>
       (if Demo.listing s
        then Some (List.filter (Demo.has_ticket t) (Demo.open_positions s))
        else None, s);
     desk_symbol_info_tick := quote;
     desk_order_send := send;
     desk_last_error := fun s => ((-10004, Demo.error_text s), s) |}.

Definition to_int (v : value) : Exn + Z :=
  match v with
  | VInt n => inr n
  | VBool b => inr (Z.b2z b)
  | VStr _ => inl (ValueError "invalid literal for int()")
  | _ => inl (TypeError "int() argument must be a string or a number")
  end.

Definition to_float (v : value) : Exn + float :=
  match v with
  | VFloat x => inr x
  | VInt n => inr (PrimFloat.of_uint63 (Uint63.of_Z n))
  | VBool b => inr (if b then 1%float else 0%float)
  | VStr _ => inl (ValueError "could not convert string to float")
  | _ => inl (TypeError "float() argument must be a string or a number")
  end.

Definition open (s : Demo.state) : Session desk := Build_Session desk s [].

End DemoDesk.

(** * Properties *)

Ltac run :=
  unfold bind, ret, mt5_positions_get_ticket, mt5_symbol_info_tick,
    mt5_order_send, mt5_initialize, mt5_positions_get, mt5_shutdown,
    mt5_last_error, call; simpl.

Lemma merge_no_lists_l (a : Lists) : merge no_lists a = a.
Proof. destruct a; reflexivity. Qed.

Lemma merge_add_failure (e : value) (acc : Lists) :
  add_failure e acc = merge acc (add_failure e no_lists).
Proof. unfold add_failure, merge; simpl. now rewrite app_nil_r. Qed.

Lemma merge_add_success (e : value) (acc : Lists) :
  add_success e acc = merge acc (add_success e no_lists).
Proof. unfold add_success, merge; simpl. now rewrite app_nil_r. Qed.

Lemma merge_assoc (a b c : Lists) : merge a (merge b c) = merge (merge a b) c.
Proof. unfold merge; simpl. now rewrite !app_assoc. Qed.

Section BatchFacts.

Variable T : Terminal.

(** What the loop has appended so far does not change what an iteration
    appends, nor what it asks the terminal. *)
Lemma batch_iteration_acc (ticket : value) (acc : Lists) (w : World T) :
  batch_iteration T ticket acc w =
  let (one, w') := batch_iteration T ticket no_lists w in (merge acc one, w').
Proof.
  unfold batch_iteration. run.
  destruct (positions_get_ticket T ticket (term w)) as [[[|p ps]|] s1]; simpl;
    try now rewrite merge_add_failure.
  destruct (symbol_info_tick T (pos_symbol p) s1) as [[t|] s2]; simpl;
    try now rewrite merge_add_failure.
  destruct (order_send T _ s2) as [[r|] s3]; simpl;
    try now rewrite merge_add_failure.
  destruct (retcode r =? mt5.TRADE_RETCODE_DONE); simpl.
  - now rewrite merge_add_success.
  - now rewrite merge_add_failure.
Qed.

(** An iteration appends exactly one entry, about its ticket, to exactly
    one of the two lists. *)
Lemma batch_iteration_one (ticket : value) (w : World T) :
  exists e, ticket_of e = ticket /\
    (fst (batch_iteration T ticket no_lists w) = add_success e no_lists \/
     fst (batch_iteration T ticket no_lists w) = add_failure e no_lists).
Proof.
  unfold batch_iteration. run.
  destruct (positions_get_ticket T ticket (term w)) as [[[|p ps]|] s1]; simpl;
    try (eexists; split; [|right; reflexivity]; reflexivity).
  destruct (symbol_info_tick T (pos_symbol p) s1) as [[t|] s2]; simpl;
    try (eexists; split; [|right; reflexivity]; reflexivity).
  destruct (order_send T _ s2) as [[r|] s3]; simpl;
    try (eexists; split; [|right; reflexivity]; reflexivity).
  destruct (retcode r =? mt5.TRADE_RETCODE_DONE); simpl.
  - eexists; split; [|left; reflexivity]; reflexivity.
  - eexists; split; [|right; reflexivity]; reflexivity.
Qed.

Lemma merge_no_lists_r (a : Lists) : merge a no_lists = a.
Proof. destruct a; unfold merge; simpl. now rewrite !app_nil_r. Qed.

Lemma batch_loop_acc (tickets : list value) (acc : Lists) (w : World T) :
  batch_loop T tickets acc w =
  let (all, w') := batch_loop T tickets no_lists w in (merge acc all, w').
Proof.
  revert acc w. induction tickets as [|t rest IH]; intros acc w; simpl.
  - unfold ret. now rewrite merge_no_lists_r.
  - unfold bind. rewrite batch_iteration_acc.
    destruct (batch_iteration T t no_lists w) as [one w1].
    rewrite IH, (IH one w1).
    destruct (batch_loop T rest no_lists w1) as [more w2].
    now rewrite merge_assoc.
Qed.

Lemma batch_loop_cons (ticket : value) (rest : list value) (w : World T) :
  batch_loop T (ticket :: rest) no_lists w =
  let (one, w1) := batch_iteration T ticket no_lists w in
  let (more, w2) := batch_loop T rest no_lists w1 in
  (merge one more, w2).
Proof.
  simpl. unfold bind.
  destruct (batch_iteration T ticket no_lists w) as [one w1].
  apply batch_loop_acc.
Qed.

(** The loop over [l1 ++ l2] is the loop over [l1] followed by the loop
    over [l2], started where the first one left the terminal. *)
Lemma batch_loop_app (l1 l2 : list value) (acc : Lists) (w : World T) :
  batch_loop T (l1 ++ l2) acc w =
  let (a1, w1) := batch_loop T l1 acc w in batch_loop T l2 a1 w1.
Proof.
  revert acc w. induction l1 as [|t l1 IH]; intros acc w; simpl.
  - reflexivity.
  - unfold bind. destruct (batch_iteration T t acc w) as [acc' w']. apply IH.
Qed.

Lemma batch_loop_dealt (tickets : list value) (w : World T) :
  let acc := fst (batch_loop T tickets no_lists w) in
  dealt tickets (map ticket_of (successful_closes acc))
                (map ticket_of (failed_closes acc)).
Proof.
  revert w. induction tickets as [|t rest IH]; intros w.
  - simpl. constructor.
  - cbv zeta. rewrite batch_loop_cons.
    destruct (batch_iteration_one t w) as (e & He & Hone).
    destruct (batch_iteration T t no_lists w) as [one w1]; simpl in Hone.
    specialize (IH w1). cbv zeta in IH.
    destruct (batch_loop T rest no_lists w1) as [more w2]; simpl in IH |- *.
    destruct Hone as [-> | ->]; simpl; rewrite <- He at 1;
      constructor; exact IH.
Qed.

Lemma dealt_length {A : Type} (l a b : list A) :
  dealt l a b -> (length a + length b = length l)%nat.
Proof. induction 1; simpl; lia. Qed.

(** A body that carries a list under ['tickets'] passes the validation and
    is answered with the report of the loop. *)
Lemma batch_endpoint_accepts (d : list (string * value)) (tickets : list value)
    (w : World T) :
  dict_get "tickets" d = Some (VList tickets) ->
  close_positions_batch_endpoint T (VDict d) w =
  let (acc, w') := batch_loop T tickets no_lists w in
  (jsonify (batch_report acc) 200, w').
Proof.
  intros Hd. unfold close_positions_batch_endpoint.
  assert (Ht : truthy (VDict d) = true) by (destruct d; [discriminate | reflexivity]).
  rewrite Ht. simpl. rewrite Hd. reflexivity.
Qed.

End BatchFacts.

Section PoolFacts.

Variable T : Terminal.

Lemma submit_phase_outcome (pos : TradePosition) (price : float) (w : World T) :
  outcome_for pos (handled pos (fst (submit_phase T pos price w))).
Proof.
  unfold submit_phase. run.
  destruct (order_send T _ (term w)) as [[r|] s]; simpl.
  - destruct (retcode r =? mt5.TRADE_RETCODE_DONE) eqn:E; simpl.
    + constructor.
    + constructor. now apply Z.eqb_neq.
  - constructor.
Qed.

Lemma close_position_outcome (pos : TradePosition) (w : World T) :
  outcome_for pos (fst (close_position T pos w)).
Proof.
  unfold close_position, bind.
  destruct (quote_phase T pos w) as [[e|price] w1]; simpl.
  - constructor.
  - pose proof (submit_phase_outcome pos price w1) as H.
    destruct (submit_phase T pos price w1) as [s w2]. exact H.
Qed.

Lemma advance_tracks (n : nat) (fs : list Future) (pos : TradePosition)
    (f : Future) (w : World T) :
  tracks pos f -> tracks pos (fst (advance T n fs f w)).
Proof.
  intros H. destruct H as [|price|v Hv]; simpl.
  - destruct (in_flight fs <? n)%nat; [|constructor].
    unfold bind. destruct (quote_phase T pos w) as [[e|price] w1]; simpl;
      repeat constructor.
  - unfold bind.
    pose proof (submit_phase_outcome pos price w) as H.
    destruct (submit_phase T pos price w) as [s w1]. simpl. now constructor.
  - now constructor.
Qed.

Lemma step_pool_tracks (n i : nat) (ps : list TradePosition) (fs : list Future)
    (w : World T) :
  Forall2 tracks ps fs -> Forall2 tracks ps (fst (step_pool T n i fs w)).
Proof.
  intros H. unfold step_pool.
  destruct (fs !! i) as [f|] eqn:Ef; [|exact H].
  destruct (Forall2_lookup_r _ _ _ _ _ H Ef) as (p & Ep & Hp).
  unfold bind.
  pose proof (advance_tracks n fs p f w Hp) as Hadv.
  destruct (advance T n fs f w) as [f' w1]. simpl in *.
  rewrite <- (list_insert_id ps i p Ep).
  now apply Forall2_insert.
Qed.

Lemma run_schedule_tracks (n : nat) (sched : list nat) (ps : list TradePosition)
    (fs : list Future) (w : World T) :
  Forall2 tracks ps fs -> Forall2 tracks ps (fst (run_schedule T n sched fs w)).
Proof.
  revert fs w. induction sched as [|i rest IH]; intros fs w H; simpl.
  - exact H.
  - unfold bind.
    pose proof (step_pool_tracks n i ps fs w H) as Hs.
    destruct (step_pool T n i fs w) as [fs' w1]. now apply IH.
Qed.

Lemma mapM_Forall2 {A B C : Type} (R : C -> A -> Prop) (R' : C -> B -> Prop)
    (g : A -> M T B) :
  (forall c a w, R c a -> R' c (fst (g a w))) ->
  forall cs l w, Forall2 R cs l -> Forall2 R' cs (fst (mapM T g l w)).
Proof.
  intros Hg cs l w H. revert w.
  induction H as [|c a cs l Hca Hrest IH]; intros w; simpl.
  - constructor.
  - unfold bind. pose proof (Hg c a w Hca) as H1.
    destruct (g a w) as [b w1]. specialize (IH w1).
    destruct (mapM T g l w1) as [bs w2]. simpl in *. now constructor.
Qed.

Lemma finish_running_tracks (pos : TradePosition) (f : Future) (w : World T) :
  tracks pos f -> tracks pos (fst (finish_running T f w)).
Proof.
  intros H. destruct H as [|price|v Hv]; simpl; try now constructor.
  unfold bind.
  pose proof (submit_phase_outcome pos price w) as H.
  destruct (submit_phase T pos price w) as [s w1]. simpl. now constructor.
Qed.

Lemma finish_outcome (pos : TradePosition) (f : Future) (w : World T) :
  tracks pos f -> outcome_for pos (fst (finish T f w)).
Proof.
  intros H. destruct H as [|price|v Hv]; simpl.
  - apply close_position_outcome.
  - unfold bind.
    pose proof (submit_phase_outcome pos price w) as H.
    destruct (submit_phase T pos price w) as [s w1]. exact H.
  - exact Hv.
Qed.

(** Every worker ends with a result for its own position. *)
Lemma drain_outcomes (ps : list TradePosition) (fs : list Future) (w : World T) :
  Forall2 tracks ps fs -> Forall2 outcome_for ps (fst (drain T fs w)).
Proof.
  intros H. unfold drain, bind.
  pose proof (mapM_Forall2 tracks tracks (finish_running T)
                (fun c a w => finish_running_tracks c a w) ps fs w H) as H1.
  destruct (mapM T (finish_running T) fs w) as [fs' w1]. simpl in H1.
  now apply (mapM_Forall2 tracks outcome_for (finish T)
               (fun c a w => finish_outcome c a w)).
Qed.

Lemma pending_tracks (ps : list TradePosition) : Forall2 tracks ps (map Pending ps).
Proof. induction ps; simpl; constructor; [constructor | assumption]. Qed.

End PoolFacts.

(** ** Collecting the results *)

Lemma filter_split_perm {A : Type} (f : A -> bool) (l : list A) :
  Permutation (List.filter f l ++ List.filter (fun x => negb (f x)) l) l.
Proof.
  induction l as [|x l IH]; simpl; [constructor|].
  destruct (f x); simpl.
  - now constructor.
  - rewrite <- Permutation_middle. now constructor.
Qed.

Lemma as_completed_perm {A : Type} (picks : list nat) (fs : list A) :
  Permutation (as_completed picks fs) fs.
Proof.
  revert fs. induction picks as [|p ps IH]; intros fs; simpl; [reflexivity|].
  destruct (fs !! (p mod length fs)%nat) as [f|] eqn:E; [|reflexivity].
  etransitivity; [|symmetry; apply (delete_Permutation fs _ f E)].
  constructor. apply IH.
Qed.


Lemma outcome_ticket (pos : TradePosition) (v : value) :
  outcome_for pos v -> ticket_of v = VInt (pos_ticket pos).
Proof. now destruct 1. Qed.

Lemma outcome_closed_iff (pos : TradePosition) (v : value) :
  outcome_for pos v -> is_closed v = true -> v = closed_outcome pos.
Proof. destruct 1; [reflexivity | discriminate | discriminate]. Qed.

(** The collecting loop never raises on the result of a worker. *)
Lemma collect_outcome (pos : TradePosition) (v : value) (acc : Report) :
  outcome_for pos v ->
  collect v acc =
  inr (if is_closed v
       then {| closed := closed acc ++ [ticket_of v]; failed := failed acc |}
       else {| closed := closed acc; failed := failed acc ++ [v] |}).
Proof. now destruct 1. Qed.

Definition an_outcome (v : value) : Prop := exists pos, outcome_for pos v.

Lemma collect_loop_outcomes (vs : list value) (acc : Report) :
  Forall an_outcome vs ->
  collect_loop vs acc =
  inr {| closed := closed acc ++ map ticket_of (List.filter is_closed vs);
         failed := failed acc ++ List.filter is_failed vs |}.
Proof.
  intros H. revert acc. induction H as [|v vs [pos Hv] Hvs IH]; intros acc; simpl.
  - now rewrite !app_nil_r; destruct acc.
  - rewrite (collect_outcome pos v acc Hv). unfold is_failed.
    destruct (is_closed v); simpl; rewrite IH; simpl;
      now rewrite <- !app_assoc.
Qed.

Lemma outcomes_all (ps : list TradePosition) (vs : list value) :
  Forall2 outcome_for ps vs -> Forall an_outcome vs.
Proof. induction 1; constructor; [eexists; eassumption | assumption]. Qed.

Lemma outcomes_tickets (ps : list TradePosition) (vs : list value) :
  Forall2 outcome_for ps vs ->
  map ticket_of vs = map (fun p => VInt (pos_ticket p)) ps.
Proof.
  induction 1 as [|p v ps vs Hp _ IH]; simpl; [reflexivity|].
  now rewrite (outcome_ticket p v Hp), IH.
Qed.

Lemma executor_width (ps : list TradePosition) :
  ps <> [] -> ThreadPoolExecutor (Z.of_nat (length ps)) = inr (length ps).
Proof.
  intros H. unfold ThreadPoolExecutor.
  destruct ps as [|p ps]; [congruence|].
  replace (Z.of_nat (length (p :: ps)) <=? 0) with false
    by (symmetry; apply Z.leb_gt; simpl length; lia).
  now rewrite Nat2Z.id.
Qed.

Section CloseAllFacts.

Variable T : Terminal.

(** With at least one open position the handler answers 200 with a report
    made of one result per position, whatever the workers' interleaving
    and the order of completion. *)
Lemma close_all_completes (magic : option Z) (sched order : list nat)
    (w : World T) (s1 s2 : tstate T) (ps : list TradePosition) :
  initialize T (term w) = (true, s1) ->
  positions_get T s1 = (Some ps, s2) ->
  ps <> [] ->
  exists results w',
    Forall2 outcome_for ps results /\
    close_all_positions_endpoint T magic sched order w =
    (jsonify (report_body
       {| closed := map ticket_of (List.filter is_closed (as_completed order results));
          failed := List.filter is_failed (as_completed order results) |}) 200, w').
Proof.
  intros Hi Hp Hne. unfold close_all_positions_endpoint. run.
  rewrite Hi. simpl. rewrite Hp. simpl. rewrite (executor_width ps Hne).
  pose proof (run_schedule_tracks T (length ps) sched ps (map Pending ps)
    {| term := s2; calls := (calls w ++ [CInitialize]) ++ [CPositionsGet] |}
    (pending_tracks ps)) as Htr.
  destruct (run_schedule T (length ps) sched (map Pending ps) _) as [fs w1].
  simpl in Htr.
  pose proof (drain_outcomes T ps fs w1 Htr) as Hout.
  destruct (drain T fs w1) as [results w2]. simpl in Hout.
  assert (Hall : Forall an_outcome (as_completed order results)).
  { rewrite (as_completed_perm order results). eapply outcomes_all; eauto. }
  rewrite (collect_loop_outcomes _ _ Hall). simpl.
  eexists results, _. split; [exact Hout | reflexivity].
Qed.

End CloseAllFacts.

Section BatchOrder.

Variable T : Terminal.

(** The loop around one ticket: what comes before, the ticket, what comes
    after, each started where the previous one left the terminal. *)
Lemma batch_loop_middle (l1 l2 : list value) (ticket : value) (w w1 w2 w3 : World T)
    (a1 one a2 : Lists) :
  batch_loop T l1 no_lists w = (a1, w1) ->
  batch_iteration T ticket no_lists w1 = (one, w2) ->
  batch_loop T l2 no_lists w2 = (a2, w3) ->
  batch_loop T (l1 ++ ticket :: l2) no_lists w = (merge a1 (merge one a2), w3).
Proof.
  intros H1 Hone H2. rewrite batch_loop_app, H1.
  rewrite batch_loop_acc, batch_loop_cons, Hone, H2. reflexivity.
Qed.



(** A ticket the terminal does not list costs one lookup and one entry. *)
Lemma batch_iteration_not_found (ticket : value) (w : World T) :
  fst (positions_get_ticket T ticket (term w)) = None \/
  fst (positions_get_ticket T ticket (term w)) = Some [] ->
  batch_iteration T ticket no_lists w =
  (add_failure (not_found_entry ticket) no_lists,
   {| term := snd (positions_get_ticket T ticket (term w));
      calls := calls w ++ [CPositionsGetTicket ticket] |}).
Proof.
  intros H. unfold batch_iteration. run.
  destruct (positions_get_ticket T ticket (term w)) as [o s1]; simpl in *.
  destruct H as [-> | ->]; reflexivity.
Qed.

End BatchOrder.

Section PoolSchedule.

Variable T : Terminal.


Lemma step_pool_length (n i : nat) (fs : list Future) (w : World T) :
  length (fst (step_pool T n i fs w)) = length fs.
Proof.
  unfold step_pool. destruct (fs !! i) as [f|]; [|reflexivity].
  unfold bind. destruct (advance T n fs f w) as [f' w1]. simpl.
  apply length_insert.
Qed.





Lemma quote_phase_calls (pos : TradePosition) (w : World T) :
  calls (snd (quote_phase T pos w)) = calls w ++ [CSymbolInfoTick (pos_symbol pos)].
Proof.
  unfold quote_phase. run.
  now destruct (symbol_info_tick T (pos_symbol pos) (term w)) as [[t|] s].
Qed.

(** A worker that is given two turns in a row does what the nested
    [close_position] does. *)
Lemma two_turns_close_position (n : nat) (fs fs' : list Future)
    (pos : TradePosition) (w : World T) :
  (in_flight fs < n)%nat ->
  (let (f1, w1) := advance T n fs (Pending pos) w in advance T n fs' f1 w1) =
  (let (v, w2) := close_position T pos w in (Finished v, w2)).
Proof.
  intros Hfree. apply Nat.ltb_lt in Hfree. simpl. rewrite Hfree.
  unfold close_position, bind.
  destruct (quote_phase T pos w) as [[e|price] w1]; simpl; [reflexivity|].
  unfold bind. now destruct (submit_phase T pos price w1) as [r w2].
Qed.


End PoolSchedule.

(** * The claims *)

Section Claims.

Variable T : Terminal.

(** Conservation in [close_positions_batch_endpoint]: every list of
    tickets, duplicates included, is answered with a report in which each
    submitted ticket has exactly one entry, in exactly one of the two
    lists; the two counts add up to the number of tickets. *)
Lemma batch_conserves_items (d : list (string * value)) (tickets : list value)
    (w : World T) :
  dict_get "tickets" d = Some (VList tickets) ->
  exists acc w',
    close_positions_batch_endpoint T (VDict d) w = (jsonify (batch_report acc) 200, w') /\
    dealt tickets (map ticket_of (successful_closes acc))
                  (map ticket_of (failed_closes acc)) /\
    (length (successful_closes acc) + length (failed_closes acc) = length tickets)%nat.
Proof.
  intros Hd. rewrite (batch_endpoint_accepts T d tickets w Hd).
  pose proof (batch_loop_dealt T tickets w) as Hdealt. cbv zeta in Hdealt.
  destruct (batch_loop T tickets no_lists w) as [acc w']. simpl in Hdealt.
  exists acc, w'. split; [reflexivity|]. split; [exact Hdealt|].
  apply dealt_length in Hdealt. now rewrite !length_map in Hdealt.
Qed.

(** X5: conservation in [close_all_positions_endpoint]: with at least one
    open position the answer is a report in which every position has
    exactly one result, in exactly one of the two lists, whatever the
    interleaving and the order of completion. *)
Lemma close_all_conserves_items (magic : option Z) (sched order : list nat)
    (w : World T) (s1 s2 : tstate T) (ps : list TradePosition) :
  initialize T (term w) = (true, s1) ->
  positions_get T s1 = (Some ps, s2) ->
  ps <> [] ->
  exists acc w',
    close_all_positions_endpoint T magic sched order w =
      (jsonify (report_body acc) 200, w') /\
    Permutation (closed acc ++ map ticket_of (failed acc))
                (map (fun p => VInt (pos_ticket p)) ps) /\
    (length (closed acc) + length (failed acc) = length ps)%nat.
Proof.
  intros Hi Hp Hne.
  destruct (close_all_completes T magic sched order w s1 s2 ps Hi Hp Hne)
    as (results & w' & Hout & Heq).
  eexists _, w'. split; [exact Heq|]. simpl.
  assert (Hperm : Permutation
    (map ticket_of (List.filter is_closed (as_completed order results)) ++
     map ticket_of (List.filter is_failed (as_completed order results)))
    (map (fun p => VInt (pos_ticket p)) ps)).
  { rewrite <- map_app. rewrite <- (outcomes_tickets ps results Hout).
    apply Permutation_map.
    etransitivity; [apply filter_split_perm | apply as_completed_perm]. }
  split; [exact Hperm|].
  apply Permutation_length in Hperm.
  rewrite length_app, !length_map in Hperm. now rewrite length_map.
Qed.

(** C2 (the code departs from the claim): when the terminal lists no open
    position, [close_all_positions_endpoint] does not answer 200 with the
    empty report.  The pool is asked for zero workers, which raises, and
    the handler's catch-all answers 500 "Internal server error".  No quote
    is fetched and no order is sent: the only calls are [initialize] and
    [positions_get]. *)
Theorem close_all_empty_is_internal_error (magic : option Z) (sched order : list nat)
    (w : World T) (s1 s2 : tstate T) :
  initialize T (term w) = (true, s1) ->
  positions_get T s1 = (Some [], s2) ->
  close_all_positions_endpoint T magic sched order w =
  (jsonify (error_body "Internal server error") 500,
   {| term := s2; calls := calls w ++ [CInitialize; CPositionsGet] |}).
Proof.
  intros Hi Hp. unfold close_all_positions_endpoint. run.
  rewrite Hi. simpl. rewrite Hp. simpl.
  now rewrite <- app_assoc.
Qed.

(** C7: when the terminal cannot supply the list of positions, the handler
    shuts the terminal down and answers 500 with the single error
    "positions_get failed: ..."; its calls are [initialize],
    [positions_get], [shutdown] and [last_error]: no quote is fetched and
    no order is sent. *)
Theorem close_all_fetch_failure_aborts (magic : option Z) (sched order : list nat)
    (w : World T) (s1 s2 : tstate T) :
  initialize T (term w) = (true, s1) ->
  positions_get T s1 = (None, s2) ->
  close_all_positions_endpoint T magic sched order w =
  (jsonify (error_body
     (String.append "positions_get failed: " (last_error T (shutdown T s2)))) 500,
   {| term := shutdown T s2;
      calls := calls w ++ [CInitialize; CPositionsGet; CShutdown; CLastError] |}).
Proof.
  intros Hi Hp. unfold close_all_positions_endpoint. run.
  rewrite Hi. simpl. rewrite Hp. simpl.
  now rewrite <- !app_assoc.
Qed.

(** C10: [close_positions_batch_endpoint] handles the tickets one at a
    time in the order of the request: any first part of the list is
    handled completely before the rest is started; the tickets of
    [successful_closes] and those of [failed_closes] are the tickets of the
    request dealt in order to the two lists, one entry per occurrence; and
    the response is a function of the request and of the terminal. *)
Theorem batch_follows_request_order (d : list (string * value))
    (tickets : list value) (w : World T) :
  dict_get "tickets" d = Some (VList tickets) ->
  exists acc w',
    close_positions_batch_endpoint T (VDict d) w = (jsonify (batch_report acc) 200, w') /\
    dealt tickets (map ticket_of (successful_closes acc))
                  (map ticket_of (failed_closes acc)) /\
    forall l1 l2, tickets = l1 ++ l2 ->
      (let (a1, w1) := batch_loop T l1 no_lists w in batch_loop T l2 a1 w1) = (acc, w').
Proof.
  intros Hd. rewrite (batch_endpoint_accepts T d tickets w Hd).
  pose proof (batch_loop_dealt T tickets w) as Hdealt. cbv zeta in Hdealt.
  pose proof (batch_loop_app T) as Happ.
  destruct (batch_loop T tickets no_lists w) as [acc w'] eqn:E. simpl in Hdealt.
  exists acc, w'. split; [reflexivity|]. split; [exact Hdealt|].
  intros l1 l2 ->. now rewrite <- Happ.
Qed.

(** C6: in [close_positions_batch_endpoint], a ticket for which the
    terminal lists no open position (it answers [None] or the empty tuple,
    as it does for a position already closed) gets the entry
    [{"ticket": ticket, "error": "Position not found."}] in
    [failed_closes] and nothing in [successful_closes]; it costs the one
    lookup; the tickets before and after it are handled as usual and the
    response is the 200 report. *)
Theorem batch_ticket_not_found (d : list (string * value)) (l1 l2 : list value)
    (ticket : value) (w w1 w3 : World T) (a1 a2 : Lists) :
  dict_get "tickets" d = Some (VList (l1 ++ ticket :: l2)) ->
  batch_loop T l1 no_lists w = (a1, w1) ->
  fst (positions_get_ticket T ticket (term w1)) = None \/
  fst (positions_get_ticket T ticket (term w1)) = Some [] ->
  batch_loop T l2 no_lists
    {| term := snd (positions_get_ticket T ticket (term w1));
       calls := calls w1 ++ [CPositionsGetTicket ticket] |} = (a2, w3) ->
  close_positions_batch_endpoint T (VDict d) w =
  (jsonify (batch_report
     {| successful_closes := successful_closes a1 ++ successful_closes a2;
        failed_closes := failed_closes a1 ++ not_found_entry ticket :: failed_closes a2 |})
     200, w3).
Proof.
  intros Hd H1 Hnone H2.
  rewrite (batch_endpoint_accepts T d _ w Hd).
  rewrite (batch_loop_middle T l1 l2 ticket w w1 _ w3 a1 _ a2 H1
             (batch_iteration_not_found T ticket w1 Hnone) H2).
  reflexivity.
Qed.

(** C5, as amended: once the order has reached the terminal,
    - [close_positions_batch_endpoint] records, for no result, a failure
      with error "order_send returned None" and a null result; for a
      result that is not done, a failure with the terminal's comment as
      error and the raw result; for a done result, a success with the
      ticket and the raw result;
    - a worker of [close_all_positions_endpoint] returns, for no result,
      a failure whose error is the message of the exception raised on
      reading [retcode] of [None]; for a result that is not done, a failure
      with the ticket, the symbol and the status code as error (neither
      comment nor raw result); for a done result, "closed" with the
      ticket. *)
Theorem order_reply_decides_outcome :
  (forall (ticket : value) (acc : Lists) (w : World T) (p : TradePosition)
      (rest : list TradePosition) (tick : Tick) (s1 s2 s3 : tstate T)
      (reply : option OrderSendResult),
    positions_get_ticket T ticket (term w) = (Some (p :: rest), s1) ->
    symbol_info_tick T (pos_symbol p) s1 = (Some tick, s2) ->
    order_send T (batch_close_request p (batch_order_type p)
                    (batch_price (batch_order_type p) tick)) s2 = (reply, s3) ->
    fst (batch_iteration T ticket acc w) =
    match reply with
    | None =>
        add_failure (VDict [("ticket", ticket);
                            ("error", VStr "order_send returned None");
                            ("result", VNone)]) acc
    | Some r =>
        if retcode r =? mt5.TRADE_RETCODE_DONE
        then add_success (VDict [("ticket", ticket); ("result", asdict r)]) acc
        else add_failure (VDict [("ticket", ticket); ("error", VStr (comment r));
                                 ("result", asdict r)]) acc
    end) /\
  (forall (pos : TradePosition) (w : World T) (tick : Tick) (s1 s2 : tstate T)
      (reply : option OrderSendResult),
    symbol_info_tick T (pos_symbol pos) (term w) = (Some tick, s1) ->
    order_send T (all_order_request pos (all_order_type pos)
                    (if all_order_type pos =? mt5.ORDER_TYPE_SELL
                     then bid tick else ask tick)) s1 = (reply, s2) ->
    fst (close_position T pos w) =
    match reply with
    | None =>
        VDict [("status", VStr "failed"); ("ticket", VInt (pos_ticket pos));
               ("error", VStr "'NoneType' object has no attribute 'retcode'")]
    | Some r =>
        if retcode r =? mt5.TRADE_RETCODE_DONE
        then VDict [("status", VStr "closed"); ("ticket", VInt (pos_ticket pos))]
        else VDict [("status", VStr "failed"); ("ticket", VInt (pos_ticket pos));
                    ("symbol", VStr (pos_symbol pos)); ("error", VInt (retcode r))]
    end).
Proof.
  split.
  - intros ticket acc w p rest tick s1 s2 s3 reply Hl Hq Ho.
    unfold batch_iteration. run. rewrite Hl. simpl. rewrite Hq. simpl.
    rewrite Ho. simpl.
    destruct reply as [r|]; [|reflexivity].
    now destruct (retcode r =? mt5.TRADE_RETCODE_DONE).
  - intros pos w tick s1 s2 reply Hq Ho.
    unfold close_position, quote_phase, submit_phase. run. rewrite Hq. simpl.
    rewrite Ho. simpl.
    destruct reply as [r|]; [|reflexivity].
    now destruct (retcode r =? mt5.TRADE_RETCODE_DONE).
Qed.

(** C8: a position that is closed is closed by an order of the opposite
    side, sent at the quote's bid when the order sells and at its ask when
    it buys, for the position's ticket, symbol and volume; this holds for
    the request [close_positions_batch_endpoint] sends and for the one a
    worker of [close_all_positions_endpoint] sends.  For
    [tickets = [101, 102, 103]], with 101 and 103 bought on EURUSD quoted
    1.1000/1.1002 and 102 not listed, 101 and 103 are closed by sell
    orders at 1.1000 and 102 fails with "Position not found.". *)
Theorem closing_order_side_and_price :
  (forall (ticket : value) (acc : Lists) (w : World T) (p : TradePosition)
      (rest : list TradePosition) (tick : Tick) (s1 s2 : tstate T) (side : Side),
    positions_get_ticket T ticket (term w) = (Some (p :: rest), s1) ->
    symbol_info_tick T (pos_symbol p) s1 = (Some tick, s2) ->
    side_of (pos_type p) = Some side ->
    exists req,
      calls (snd (batch_iteration T ticket acc w)) =
        calls w ++ [CPositionsGetTicket ticket; CSymbolInfoTick (pos_symbol p);
                    COrderSend req] /\
      side_of (req_type req) = Some (opposite side) /\
      req_price req = quoted (opposite side) tick /\
      req_position req = pos_ticket p /\
      req_symbol req = pos_symbol p /\
      req_volume req = pos_volume p) /\
  (forall (pos : TradePosition) (w : World T) (tick : Tick) (s1 : tstate T)
      (side : Side),
    symbol_info_tick T (pos_symbol pos) (term w) = (Some tick, s1) ->
    side_of (pos_type pos) = Some side ->
    exists req,
      calls (snd (close_position T pos w)) =
        calls w ++ [CSymbolInfoTick (pos_symbol pos); COrderSend req] /\
      side_of (req_type req) = Some (opposite side) /\
      req_price req = quoted (opposite side) tick /\
      req_position req = pos_ticket pos /\
      req_symbol req = pos_symbol pos /\
      req_volume req = pos_volume pos) /\
  close_positions_batch_endpoint Demo.terminal (Demo.tickets_body [101; 102; 103])
    (Demo.boot (Demo.account [Demo.buy 101 0 "EURUSD"; Demo.buy 103 0 "EURUSD"])) =
  (jsonify (batch_report
     {| successful_closes :=
          [success_entry (VInt 101)
             (Demo.answer mt5.TRADE_RETCODE_DONE "Request executed"
                (Demo.sell_to_close 101));
           success_entry (VInt 103)
             (Demo.answer mt5.TRADE_RETCODE_DONE "Request executed"
                (Demo.sell_to_close 103))];
        failed_closes :=
          [VDict [("ticket", VInt 102); ("error", VStr "Position not found.")]] |})
     200,
   Build_World Demo.terminal (Demo.account [])
     [CPositionsGetTicket (VInt 101); CSymbolInfoTick "EURUSD";
      COrderSend (Demo.sell_to_close 101);
      CPositionsGetTicket (VInt 102);
      CPositionsGetTicket (VInt 103); CSymbolInfoTick "EURUSD";
      COrderSend (Demo.sell_to_close 103)]).
Proof.
  split; [|split].
  - intros ticket acc w p rest tick s1 s2 side Hl Hq Hside.
    unfold batch_iteration. run. rewrite Hl. simpl. rewrite Hq. simpl.
    eexists. split.
    + destruct (order_send T _ s2) as [[r|] s3]; simpl;
        [destruct (retcode r =? mt5.TRADE_RETCODE_DONE)|]; simpl;
        rewrite <- !app_assoc; reflexivity.
    + simpl. unfold side_of, batch_order_type, batch_price in *.
      destruct (pos_type p =? mt5.ORDER_TYPE_BUY).
      * inversion Hside; subst side. now repeat split.
      * destruct (pos_type p =? mt5.ORDER_TYPE_SELL); [|discriminate].
        inversion Hside; subst side. now repeat split.
  - intros pos w tick s1 side Hq Hside.
    unfold close_position, quote_phase, submit_phase. run. rewrite Hq. simpl.
    eexists. split.
    + destruct (order_send T _ s1) as [[r|] s3]; simpl;
        [destruct (retcode r =? mt5.TRADE_RETCODE_DONE)|]; simpl;
        rewrite <- !app_assoc; reflexivity.
    + simpl. unfold side_of, all_order_type in *.
      change mt5.POSITION_TYPE_BUY with mt5.ORDER_TYPE_BUY.
      destruct (pos_type pos =? mt5.ORDER_TYPE_BUY).
      * inversion Hside; subst side. now repeat split.
      * destruct (pos_type pos =? mt5.ORDER_TYPE_SELL); [|discriminate].
        inversion Hside; subst side. now repeat split.
  - vm_compute. reflexivity.
Qed.



(** C3 (the code departs from the claim): the handler never reads the
    [magic] parameter of the request, so its response is the same with and
    without it; asked to close the positions tagged 7 on an account that
    holds ticket 1 tagged 7 and ticket 2 tagged 9, it closes both. *)
Theorem close_all_ignores_magic :
  (forall (magic : option Z) (sched order : list nat) (w : World T),
    close_all_positions_endpoint T magic sched order w =
    close_all_positions_endpoint T None sched order w) /\
  fst (close_all_positions_endpoint Demo.terminal (Some 7) [] []
         (Demo.boot (Demo.account [Demo.buy 1 7 "EURUSD"; Demo.buy 2 9 "EURUSD"]))) =
  jsonify (report_body {| closed := [VInt 1; VInt 2]; failed := [] |}) 200.
Proof. split; [reflexivity | vm_compute; reflexivity]. Qed.

(** C1 (the code departs from the claim): on an account without open
    positions the batch of [close_all_positions_endpoint] is empty and the
    response is no report at all: it is the 500 error of the catch-all,
    with neither a [closed] nor a [failed] list to count. *)
Theorem close_all_empty_has_no_report (magic : option Z) (sched order : list nat) :
  let response :=
    fst (close_all_positions_endpoint Demo.terminal magic sched order
           (Demo.boot (Demo.account []))) in
  response = jsonify (error_body "Internal server error") 500 /\
  subscript (body response) "closed" = inl (KeyError "closed") /\
  subscript (body response) "failed" = inl (KeyError "failed").
Proof. repeat split. Qed.

End Claims.

(** * The claims on the demo terminal *)

Lemma close_all_empty_is_internal_error_witness :
  initialize Demo.terminal (Demo.account []) = (true, Demo.account []) /\
  positions_get Demo.terminal (Demo.account []) = (Some [], Demo.account []) /\
  close_all_positions_endpoint Demo.terminal None [] [] (Demo.boot (Demo.account [])) =
  (jsonify (error_body "Internal server error") 500,
   Build_World Demo.terminal (Demo.account []) [CInitialize; CPositionsGet]).
Proof.
  split; [reflexivity|]. split; [reflexivity|].
  apply (close_all_empty_is_internal_error Demo.terminal None [] []
           (Demo.boot (Demo.account [])) (Demo.account []) (Demo.account []));
    reflexivity.
Defined.

Lemma close_all_fetch_failure_aborts_witness :
  let s := Demo.blind (Demo.account [Demo.buy 101 0 "EURUSD"]) in
  initialize Demo.terminal s = (true, s) /\
  positions_get Demo.terminal s = (None, s) /\
  close_all_positions_endpoint Demo.terminal None [0%nat] [] (Demo.boot s) =
  (jsonify (error_body "positions_get failed: (-10004, 'No IPC connection')") 500,
   Build_World Demo.terminal s [CInitialize; CPositionsGet; CShutdown; CLastError]).
Proof.
  cbv zeta. split; [reflexivity|]. split; [reflexivity|].
  apply (close_all_fetch_failure_aborts Demo.terminal None [0%nat] []
           (Demo.boot (Demo.blind (Demo.account [Demo.buy 101 0 "EURUSD"])))
           (Demo.blind (Demo.account [Demo.buy 101 0 "EURUSD"]))
           (Demo.blind (Demo.account [Demo.buy 101 0 "EURUSD"])));
    reflexivity.
Defined.

Lemma batch_follows_request_order_witness :
  let w := Demo.boot (Demo.account [Demo.buy 101 0 "EURUSD"; Demo.buy 103 0 "EURUSD"]) in
  let tickets := [VInt 103; VInt 102; VInt 103; VInt 101] in
  dict_get "tickets" [("tickets", VList tickets)] = Some (VList tickets) /\
  exists acc w',
    close_positions_batch_endpoint Demo.terminal
      (VDict [("tickets", VList tickets)]) w = (jsonify (batch_report acc) 200, w') /\
    dealt tickets (map ticket_of (successful_closes acc))
                  (map ticket_of (failed_closes acc)) /\
    forall l1 l2, tickets = l1 ++ l2 ->
      (let (a1, w1) := batch_loop Demo.terminal l1 no_lists w in
       batch_loop Demo.terminal l2 a1 w1) = (acc, w').
Proof.
  cbv zeta. split; [reflexivity|].
  apply (batch_follows_request_order Demo.terminal). reflexivity.
Defined.

Lemma batch_ticket_not_found_witness :
  let w := Demo.boot (Demo.account [Demo.buy 101 0 "EURUSD"; Demo.buy 103 0 "EURUSD"]) in
  let closed101 :=
    success_entry (VInt 101)
      (Demo.answer mt5.TRADE_RETCODE_DONE "Request executed" (Demo.sell_to_close 101)) in
  let closed103 :=
    success_entry (VInt 103)
      (Demo.answer mt5.TRADE_RETCODE_DONE "Request executed" (Demo.sell_to_close 103)) in
  fst (close_positions_batch_endpoint Demo.terminal
         (Demo.tickets_body [101; 101; 103]) w) =
  jsonify (batch_report
    {| successful_closes := [closed101; closed103];
       failed_closes := [not_found_entry (VInt 101)] |}) 200.
Proof.
  cbv zeta. unfold Demo.tickets_body.
  set (w := Demo.boot (Demo.account [Demo.buy 101 0 "EURUSD"; Demo.buy 103 0 "EURUSD"])).
  set (r1 := batch_loop Demo.terminal [VInt 101] no_lists w).
  set (w2 := Build_World Demo.terminal
               (snd (positions_get_ticket Demo.terminal (VInt 101) (term (snd r1))))
               (calls (snd r1) ++ [CPositionsGetTicket (VInt 101)])).
  set (r2 := batch_loop Demo.terminal [VInt 103] no_lists w2).
  rewrite (batch_ticket_not_found Demo.terminal
             [("tickets", VList (map VInt [101; 101; 103]))]
             [VInt 101] [VInt 103] (VInt 101) w (snd r1) (snd r2) (fst r1) (fst r2)).
  - vm_compute. reflexivity.
  - reflexivity.
  - vm_compute. reflexivity.
  - right. vm_compute. reflexivity.
  - vm_compute. reflexivity.
Defined.

Lemma order_reply_decides_outcome_witness :
  let held := Demo.buy 101 0 "EURUSD" in
  let s := Demo.refusing [101] (Demo.account [held]) in
  fst (batch_iteration Demo.terminal (VInt 101) no_lists (Demo.boot s)) =
    add_failure
      (VDict [("ticket", VInt 101); ("error", VStr "Request rejected");
              ("result", asdict (Demo.answer Demo.TRADE_RETCODE_REJECT
                                   "Request rejected" (Demo.sell_to_close 101)))])
      no_lists /\
  fst (close_position Demo.terminal held (Demo.boot s)) =
    VDict [("status", VStr "failed"); ("ticket", VInt 101);
           ("symbol", VStr "EURUSD"); ("error", VInt 10006)] /\
  fst (close_position Demo.terminal held (Demo.boot (Demo.cut s))) =
    VDict [("status", VStr "failed"); ("ticket", VInt 101);
           ("error", VStr "'NoneType' object has no attribute 'retcode'")].
Proof.
  cbv zeta.
  destruct (order_reply_decides_outcome Demo.terminal) as [Hbatch Hall].
  set (held := Demo.buy 101 0 "EURUSD").
  set (s := Demo.refusing [101] (Demo.account [held])).
  split; [|split].
  - apply (Hbatch (VInt 101) no_lists (Demo.boot s) held [] Demo.eurusd s s s
             (Some (Demo.answer Demo.TRADE_RETCODE_REJECT "Request rejected"
                      (Demo.sell_to_close 101)))); reflexivity.
  - apply (Hall held (Demo.boot s) Demo.eurusd s s
             (Some (Demo.answer Demo.TRADE_RETCODE_REJECT "Request rejected"
                      (all_order_request held mt5.ORDER_TYPE_SELL (bid Demo.eurusd)))));
      reflexivity.
  - apply (Hall held (Demo.boot (Demo.cut s)) Demo.eurusd (Demo.cut s) (Demo.cut s) None);
      reflexivity.
Defined.

(** C5 as stated fails in [close_all_positions_endpoint]: the terminal
    rejects the order that closes ticket 101 with the comment "Request
    rejected", and the failure entry of the response carries the status code
    10006 as its error, not the comment, and no raw result. *)
Lemma close_all_rejection_counterexample :
  let held := Demo.buy 101 0 "EURUSD" in
  let s := Demo.refusing [101] (Demo.account [held]) in
  let request := all_order_request held mt5.ORDER_TYPE_SELL (bid Demo.eurusd) in
  let reply := Demo.answer Demo.TRADE_RETCODE_REJECT "Request rejected" request in
  let entry := VDict [("status", VStr "failed"); ("ticket", VInt 101);
                      ("symbol", VStr "EURUSD"); ("error", VInt 10006)] in
  Demo.send request s = (Some reply, s) /\
  fst (close_all_positions_endpoint Demo.terminal None [] [] (Demo.boot s)) =
    jsonify (report_body {| closed := []; failed := [entry] |}) 200 /\
  ~ carries_comment_and_result entry reply.
Proof.
  cbv zeta. split; [reflexivity|]. split; [vm_compute; reflexivity|].
  intros [Herr _]. vm_compute in Herr. discriminate Herr.
Qed.

Lemma closing_order_side_and_price_witness :
  let bought := Demo.buy 101 0 "EURUSD" in
  let sold := Demo.sell 7 0 "EURUSD" in
  (exists req,
     calls (snd (batch_iteration Demo.terminal (VInt 101) no_lists
                   (Demo.boot (Demo.account [bought])))) =
       [CPositionsGetTicket (VInt 101); CSymbolInfoTick "EURUSD"; COrderSend req] /\
     side_of (req_type req) = Some Sell /\
     req_price req = bid Demo.eurusd /\
     req_position req = 101 /\
     req_symbol req = "EURUSD" /\
     req_volume req = 1%float) /\
  (exists req,
     calls (snd (close_position Demo.terminal sold (Demo.boot (Demo.account [sold])))) =
       [CSymbolInfoTick "EURUSD"; COrderSend req] /\
     side_of (req_type req) = Some Buy /\
     req_price req = ask Demo.eurusd /\
     req_position req = 7 /\
     req_symbol req = "EURUSD" /\
     req_volume req = 1%float).
Proof.
  cbv zeta.
  destruct (closing_order_side_and_price Demo.terminal) as (Hbatch & Hall & _).
  split.
  - apply (Hbatch (VInt 101) no_lists
             (Demo.boot (Demo.account [Demo.buy 101 0 "EURUSD"]))
             (Demo.buy 101 0 "EURUSD") [] Demo.eurusd
             (Demo.account [Demo.buy 101 0 "EURUSD"])
             (Demo.account [Demo.buy 101 0 "EURUSD"]) Buy); reflexivity.
  - apply (Hall (Demo.sell 7 0 "EURUSD")
             (Demo.boot (Demo.account [Demo.sell 7 0 "EURUSD"])) Demo.eurusd
             (Demo.account [Demo.sell 7 0 "EURUSD"]) Sell); reflexivity.
Defined.




(** * Beyond the claims *)

(** ** The calls of [close_positions_batch_endpoint] *)



Section BatchCalls.

Variable T : Terminal.




(** X2: a body that is not an object with a list under ['tickets'] is turned
    down before the terminal is asked anything: with 400, or with the 500
    of the catch-all when the membership test or the subscript raises (a
    number, [true], an array that contains the string "tickets" or a string
    that contains it). *)
Theorem batch_rejects_before_any_call (data : value) (w : World T) :
  (forall d tickets, data = VDict d -> dict_get "tickets" d <> Some (VList tickets)) ->
  exists r,
    close_positions_batch_endpoint T data w = (r, w) /\
    (r = jsonify (error_body "A JSON array of 'tickets' is required.") 400 \/
     r = jsonify (error_body "Internal server error") 500) /\
    (status r = 500 <->
     match data with
     | VBool b => b = true
     | VInt n => n <> 0
     | VFloat x => PrimFloat.eqb x 0%float = false
     | VStr s => String.index 0 "tickets" s <> None
     | VList l => existsb (fun v => eq_str v "tickets") l = true
     | _ => False
     end).
Proof.
  intros Hbad. unfold close_positions_batch_endpoint.
  destruct data as [|b|n|x|s|l|d]; simpl.
  - eexists; split; [reflexivity|]. split; [now left|]. simpl. split; [lia | tauto].
  - destruct b; simpl; eexists; (split; [reflexivity|]);
      (split; [auto|]); simpl; split; try lia; try tauto; discriminate.
  - destruct (n =? 0) eqn:E; simpl; eexists; (split; [reflexivity|]);
      (split; [auto|]); simpl.
    + apply Z.eqb_eq in E. split; [lia | tauto].
    + apply Z.eqb_neq in E. tauto.
  - destruct (PrimFloat.eqb x 0) eqn:E; simpl; eexists; (split; [reflexivity|]);
      (split; [auto|]); simpl; split; try lia; try tauto; discriminate.
  - destruct (String.eqb s EmptyString) eqn:E; simpl.
    + apply String.eqb_eq in E. subst s.
      eexists; split; [reflexivity|]. split; [now left|]. simpl.
      split; [lia | tauto].
    + destruct (index 0 "tickets" s) as [k|]; simpl;
        eexists; (split; [reflexivity|]); (split; [auto|]); simpl;
        split; try lia; try tauto; try discriminate.
  - destruct l as [|v l]; simpl.
    + eexists; split; [reflexivity|]. split; [now left|]. simpl.
      split; [lia | discriminate].
    + destruct (eq_str v "tickets" || existsb (fun v => eq_str v "tickets") l); simpl;
        eexists; (split; [reflexivity|]); (split; [auto|]); simpl;
        split; try lia; try tauto; discriminate.
  - destruct d as [|kv d].
    + eexists; split; [reflexivity|]. split; [now left|]. simpl. split; [lia | tauto].
    + specialize (Hbad (kv :: d)). set (dd := kv :: d) in *.
      change (truthy (VDict dd)) with true. cbn [negb has_tickets get_tickets].
      destruct (dict_get "tickets" dd) as [v|] eqn:E.
      * destruct v as [|b|n|x|s|l|d'];
          try (eexists; split; [reflexivity|]; split; [now left|];
               simpl; split; [lia | tauto]).
        exfalso. now apply (Hbad l).
      * eexists; split; [reflexivity|]. split; [now left|]. simpl. split; [lia | tauto].
Qed.

End BatchCalls.

(** ** The calls of [close_all_positions_endpoint] *)

Section PoolCalls.

Variable T : Terminal.
Variable ps : list TradePosition.


Lemma submit_phase_calls (pos : TradePosition) (price : float) (w : World T) :
  calls (snd (submit_phase T pos price w)) =
  calls w ++ [COrderSend (all_order_request pos (all_order_type pos) price)].
Proof.
  unfold submit_phase. run.
  destruct (order_send T _ (term w)) as [[r|] s]; simpl;
    [destruct (retcode r =? mt5.TRADE_RETCODE_DONE)|]; reflexivity.
Qed.














End PoolCalls.

Section CloseAllCalls.

Variable T : Terminal.


(** X6: when the terminal cannot be initialised, the handler answers 500 with
    the terminal's last error and stops there: it neither lists the
    positions nor shuts the terminal down. *)
Theorem close_all_initialize_failure (magic : option Z) (sched order : list nat)
    (w : World T) (s1 : tstate T) :
  initialize T (term w) = (false, s1) ->
  close_all_positions_endpoint T magic sched order w =
  (jsonify (error_body (String.append "MT5 initialize failed: " (last_error T s1))) 500,
   {| term := s1; calls := calls w ++ [CInitialize; CLastError] |}).
Proof.
  intros Hi. unfold close_all_positions_endpoint. run.
  rewrite Hi. simpl. now rewrite <- app_assoc.
Qed.

End CloseAllCalls.

Section Backing.

Variable T : Terminal.

Lemma ordered_app (base new : list Call) (t : value) :
  ordered base t -> ordered (base ++ new) t.
Proof. intros (r & Hr & Ht). exists r. split; [apply in_or_app; now left | exact Ht]. Qed.

Lemma backed_app (base new : list Call) (v : value) :
  backed base v -> backed (base ++ new) v.
Proof. intros H Hc. apply ordered_app. now apply H. Qed.

Lemma future_backed_app (base new : list Call) (f : Future) :
  future_backed base f -> future_backed (base ++ new) f.
Proof. destruct f; simpl; auto. apply backed_app. Qed.

Lemma raised_backed (log : list Call) (pos : TradePosition) (e : Exn) :
  backed log (raised_outcome pos e).
Proof. intros H. discriminate H. Qed.

(** The result of the second half of a worker is backed by the order that
    half has just sent. *)
Lemma submit_phase_backs (pos : TradePosition) (price : float) (w : World T)
    (base : list Call) :
  backed (base ++ [COrderSend (all_order_request pos (all_order_type pos) price)])
         (handled pos (fst (submit_phase T pos price w))).
Proof.
  unfold submit_phase. run.
  destruct (order_send T _ (term w)) as [[r|] s]; simpl.
  - destruct (retcode r =? mt5.TRADE_RETCODE_DONE); simpl.
    + intros _. eexists. split; [apply in_or_app; right; left; reflexivity|].
      reflexivity.
    + intros H. discriminate H.
  - apply raised_backed.
Qed.

Lemma advance_backs (n : nat) (fs : list Future) (f : Future) (w : World T) :
  exists new,
    calls (snd (advance T n fs f w)) = calls w ++ new /\
    forall base, future_backed base f ->
                 future_backed (base ++ new) (fst (advance T n fs f w)).
Proof.
  destruct f as [pos|pos price|v]; simpl.
  - destruct (in_flight fs <? n)%nat.
    + unfold bind. pose proof (quote_phase_calls T pos w) as Hq.
      destruct (quote_phase T pos w) as [[e|price] w1]; simpl in *;
        eexists; (split; [exact Hq|]); intros base _; simpl; auto.
      apply raised_backed.
    + exists []. rewrite app_nil_r. split; [reflexivity|]. now intros base _.
  - unfold bind. pose proof (submit_phase_calls T pos price w) as Hs.
    pose proof (submit_phase_backs pos price w) as Hb.
    destruct (submit_phase T pos price w) as [r w1]; simpl in *.
    eexists. split; [exact Hs|]. intros base _. apply Hb.
  - exists []. rewrite app_nil_r. split; [reflexivity|].
    intros base H. now rewrite app_nil_r.
Qed.

Lemma step_pool_backs (n i : nat) (fs : list Future) (w : World T) :
  exists new,
    calls (snd (step_pool T n i fs w)) = calls w ++ new /\
    forall base, Forall (future_backed base) fs ->
                 Forall (future_backed (base ++ new)) (fst (step_pool T n i fs w)).
Proof.
  unfold step_pool. destruct (fs !! i) as [f|] eqn:Ef.
  2:{ exists []. rewrite app_nil_r. split; [reflexivity|].
      intros base H. now rewrite app_nil_r. }
  unfold bind. destruct (advance_backs n fs f w) as (new & Hc & Hb).
  destruct (advance T n fs f w) as [f' w1]. simpl in *.
  exists new. split; [exact Hc|]. intros base H.
  apply Forall_insert.
  - eapply Forall_impl; [exact H|]. intros g Hg. now apply future_backed_app.
  - apply Hb. rewrite Forall_forall in H. apply H.
    eapply list_elem_of_lookup_2; eauto.
Qed.

Lemma run_schedule_backs (n : nat) (sched : list nat) (fs : list Future) (w : World T) :
  exists new,
    calls (snd (run_schedule T n sched fs w)) = calls w ++ new /\
    forall base, Forall (future_backed base) fs ->
                 Forall (future_backed (base ++ new)) (fst (run_schedule T n sched fs w)).
Proof.
  revert fs w. induction sched as [|i rest IH]; intros fs w; simpl.
  - exists []. rewrite app_nil_r. split; [reflexivity|].
    intros base H. now rewrite app_nil_r.
  - unfold bind. destruct (step_pool_backs n i fs w) as (n1 & Hc1 & Hb1).
    destruct (step_pool T n i fs w) as [fs1 w1]. simpl in *.
    destruct (IH fs1 w1) as (n2 & Hc2 & Hb2).
    exists (n1 ++ n2). split; [now rewrite Hc2, Hc1, <- app_assoc|].
    intros base H. rewrite app_assoc. apply Hb2. now apply Hb1.
Qed.

Lemma mapM_backs {B : Type} (g : Future -> M T B) (ok : list Call -> B -> Prop) :
  (forall base new b, ok base b -> ok (base ++ new) b) ->
  (forall f w, exists new,
     calls (snd (g f w)) = calls w ++ new /\
     forall base, future_backed base f -> ok (base ++ new) (fst (g f w))) ->
  forall fs w, exists new,
    calls (snd (mapM T g fs w)) = calls w ++ new /\
    forall base, Forall (future_backed base) fs ->
                 Forall (ok (base ++ new)) (fst (mapM T g fs w)).
Proof.
  intros Hmono Hg fs. induction fs as [|f fs IH]; intros w; simpl.
  - exists []. rewrite app_nil_r. split; [reflexivity|]. intros base _. constructor.
  - unfold bind. destruct (Hg f w) as (n1 & Hc1 & Hb1).
    destruct (g f w) as [b w1]. simpl in *.
    destruct (IH w1) as (n2 & Hc2 & Hb2).
    destruct (mapM T g fs w1) as [bs w2]. simpl in *.
    exists (n1 ++ n2). split; [now rewrite Hc2, Hc1, <- app_assoc|].
    intros base H. inversion H as [|? ? Hf Hrest]; subst.
    rewrite app_assoc. constructor.
    + apply Hmono. now apply Hb1.
    + apply Hb2. eapply Forall_impl; [exact Hrest|].
      intros g0 Hg0. now apply future_backed_app.
Qed.

Lemma finish_running_backs (f : Future) (w : World T) :
  exists new,
    calls (snd (finish_running T f w)) = calls w ++ new /\
    forall base, future_backed base f ->
                 future_backed (base ++ new) (fst (finish_running T f w)).
Proof.
  destruct f as [pos|pos price|v]; simpl.
  - exists []. rewrite app_nil_r. split; [reflexivity|]. now intros base _.
  - unfold bind. pose proof (submit_phase_calls T pos price w) as Hs.
    pose proof (submit_phase_backs pos price w) as Hb.
    destruct (submit_phase T pos price w) as [r w1]; simpl in *.
    eexists. split; [exact Hs|]. intros base _. apply Hb.
  - exists []. rewrite app_nil_r. split; [reflexivity|].
    intros base H. now rewrite app_nil_r.
Qed.

Lemma finish_backs (f : Future) (w : World T) :
  exists new,
    calls (snd (finish T f w)) = calls w ++ new /\
    forall base, future_backed base f -> backed (base ++ new) (fst (finish T f w)).
Proof.
  destruct f as [pos|pos price|v]; simpl.
  - unfold close_position, bind. pose proof (quote_phase_calls T pos w) as Hq.
    destruct (quote_phase T pos w) as [[e|price] w1]; simpl in *.
    + eexists. split; [exact Hq|]. intros base _. apply raised_backed.
    + pose proof (submit_phase_calls T pos price w1) as Hs.
      pose proof (submit_phase_backs pos price w1) as Hb.
      destruct (submit_phase T pos price w1) as [r w2]; simpl in *.
      exists [CSymbolInfoTick (pos_symbol pos);
              COrderSend (all_order_request pos (all_order_type pos) price)].
      split; [now rewrite Hs, Hq, <- app_assoc|].
      intros base _.
      change (base ++ [CSymbolInfoTick (pos_symbol pos);
                       COrderSend (all_order_request pos (all_order_type pos) price)])
        with (base ++ [CSymbolInfoTick (pos_symbol pos)] ++
                      [COrderSend (all_order_request pos (all_order_type pos) price)]).
      rewrite app_assoc. apply Hb.
  - unfold bind. pose proof (submit_phase_calls T pos price w) as Hs.
    pose proof (submit_phase_backs pos price w) as Hb.
    destruct (submit_phase T pos price w) as [r w1]; simpl in *.
    eexists. split; [exact Hs|]. intros base _. apply Hb.
  - exists []. rewrite app_nil_r. split; [reflexivity|].
    intros base H. now rewrite app_nil_r.
Qed.

Lemma drain_backs (fs : list Future) (w : World T) :
  exists new,
    calls (snd (drain T fs w)) = calls w ++ new /\
    forall base, Forall (future_backed base) fs ->
                 Forall (backed (base ++ new)) (fst (drain T fs w)).
Proof.
  unfold drain, bind.
  destruct (mapM_backs (finish_running T) future_backed
              (fun base new b => future_backed_app base new b)
              finish_running_backs fs w) as (n1 & Hc1 & Hb1).
  destruct (mapM T (finish_running T) fs w) as [fs1 w1]. simpl in *.
  destruct (mapM_backs (finish T) backed
              (fun base new b => backed_app base new b)
              finish_backs fs1 w1) as (n2 & Hc2 & Hb2).
  destruct (mapM T (finish T) fs1 w1) as [vs w2]. simpl in *.
  exists (n1 ++ n2). split; [now rewrite Hc2, Hc1, <- app_assoc|].
  intros base H. rewrite app_assoc. apply Hb2. now apply Hb1.
Qed.

Lemma backed_closed (log : list Call) (vs : list value) :
  Forall (backed log) vs ->
  Forall (ordered log) (map ticket_of (List.filter is_closed vs)).
Proof.
  induction 1 as [|v vs Hv _ IH]; simpl; [constructor|].
  destruct (is_closed v) eqn:E; simpl; [|exact IH].
  constructor; [now apply Hv | exact IH].
Qed.

(** X4: every ticket that [close_all_positions_endpoint] reports as closed is
    the ticket of an order the handler sent during the request, between
    listing the positions and shutting the terminal down. *)
Theorem closed_tickets_were_ordered (magic : option Z) (sched order : list nat)
    (w : World T) (s1 s2 : tstate T) (ps : list TradePosition) :
  initialize T (term w) = (true, s1) ->
  positions_get T s1 = (Some ps, s2) ->
  ps <> [] ->
  exists acc w' mid,
    close_all_positions_endpoint T magic sched order w =
      (jsonify (report_body acc) 200, w') /\
    calls w' = calls w ++ [CInitialize; CPositionsGet] ++ mid ++ [CShutdown] /\
    Forall (ordered mid) (closed acc).
Proof.
  intros Hi Hp Hne. unfold close_all_positions_endpoint. run.
  rewrite Hi. simpl. rewrite Hp. simpl. rewrite (executor_width ps Hne).
  set (w0 := {| term := s2; calls := (calls w ++ [CInitialize]) ++ [CPositionsGet] |}).
  pose proof (run_schedule_tracks T (length ps) sched ps (map Pending ps) w0
                (pending_tracks ps)) as Htr.
  destruct (run_schedule_backs (length ps) sched (map Pending ps) w0)
    as (n1 & Hc1 & Hb1).
  destruct (run_schedule T (length ps) sched (map Pending ps) w0) as [fs w1].
  simpl in Htr, Hc1, Hb1.
  pose proof (drain_outcomes T ps fs w1 Htr) as Hout.
  destruct (drain_backs fs w1) as (n2 & Hc2 & Hb2).
  destruct (drain T fs w1) as [results w2]. simpl in Hout, Hc2, Hb2.
  assert (Hall : Forall an_outcome (as_completed order results)).
  { rewrite (as_completed_perm order results). eapply outcomes_all; eauto. }
  rewrite (collect_loop_outcomes _ _ Hall). simpl.
  eexists _, _, (n1 ++ n2). split; [reflexivity|]. simpl.
  split; [rewrite Hc2, Hc1; unfold w0; simpl; now rewrite <- !app_assoc|].
  assert (Hback : Forall (backed (n1 ++ n2)) results).
  { apply (Hb2 n1). apply (Hb1 []).
    apply Forall_forall. intros f Hf. apply list_elem_of_In, in_map_iff in Hf.
    destruct Hf as (p & <- & _). exact I. }
  rewrite <- (as_completed_perm order results) in Hback.
  now apply backed_closed.
Qed.

End Backing.

(** ** The token check *)

Lemma startswith_spec (s p : string) :
  startswith s p = true <-> exists rest, s = (p ++ rest)%string.
Proof.
  unfold startswith. revert s. induction p as [|c p IH]; intros s; simpl.
  - destruct s; split; try reflexivity; intros _; eexists; reflexivity.
  - destruct s as [|c' s]; simpl.
    + split; [discriminate | intros [rest H]; discriminate].
    + destruct (Ascii.ascii_dec c c') as [->|Hne].
      * rewrite IH. split; intros [rest H]; exists rest; [now rewrite H | now inversion H].
      * split; [discriminate | intros [rest H]; inversion H; congruence].
Qed.

Lemma split_space_nonempty (s : string) : split_space s <> [].
Proof.
  induction s as [|c s IH]; simpl; [discriminate|].
  destruct (Ascii.eqb c " "); [discriminate|].
  destruct (split_space s); discriminate.
Qed.

(** The first piece is the text before the first space; the other pieces
    are those of the text after it. *)
Lemma split_space_word (word rest : string) :
  spaceless word = true ->
  split_space (word ++ String " " rest)%string = word :: split_space rest.
Proof.
  induction word as [|c word IH]; simpl; intros H.
  - reflexivity.
  - apply andb_prop in H. destruct H as [Hc Hw].
    apply negb_true_iff in Hc. rewrite Hc, (IH Hw). reflexivity.
Qed.

Lemma split_space_last (word : string) :
  spaceless word = true -> split_space word = [word].
Proof.
  induction word as [|c word IH]; simpl; intros H.
  - reflexivity.
  - apply andb_prop in H. destruct H as [Hc Hw].
    apply negb_true_iff in Hc. rewrite Hc, (IH Hw). reflexivity.
Qed.

Lemma split_space_head (s : string) :
  exists word words,
    split_space s = word :: words /\ spaceless word = true /\
    (s = word \/ exists rest, s = (word ++ String " " rest)%string).
Proof.
  induction s as [|c s (word & words & Hs & Hw & Hrest)]; simpl.
  - exists EmptyString, []. auto.
  - destruct (Ascii.eqb c " ") eqn:E.
    + apply Ascii.eqb_eq in E. subst c.
      exists EmptyString, (split_space s). split; [reflexivity|].
      split; [reflexivity|]. right. now exists s.
    + rewrite Hs. exists (String c word), words. split; [reflexivity|].
      split; [simpl; now rewrite E|].
      destruct Hrest as [-> | [rest ->]]; [now left | right; now exists rest].
Qed.

Lemma hook_decides (path : string) (authorization token : option string) :
  require_token_globally path authorization token = Continue \/
  require_token_globally path authorization token = Respond unauthorized.
Proof.
  unfold require_token_globally.
  destruct (existsb (startswith path) public_paths); [now left|].
  set (h := match authorization with Some h => h | None => EmptyString end).
  destruct (startswith h "Bearer ") eqn:E; simpl; [|now right].
  apply startswith_spec in E. destruct E as [rest ->].
  change ("Bearer " ++ rest)%string with ("Bearer" ++ String " " rest)%string.
  rewrite (split_space_word "Bearer" rest eq_refl). simpl.
  destruct (split_space_head rest) as (word & words & -> & _). simpl.
  destruct token as [t|]; [|now right].
  destruct (String.eqb word t); [now left | now right].
Qed.

Lemma hook_continue_iff (path : string) (authorization token : option string) :
  require_token_globally path authorization token = Continue <->
  (exists p rest, In p public_paths /\ path = (p ++ rest)%string) \/
  (exists t, token = Some t /\ spaceless t = true /\
     (authorization = Some ("Bearer " ++ t)%string \/
      exists rest, authorization = Some ("Bearer " ++ t ++ String " " rest)%string)).
Proof.
  unfold require_token_globally.
  destruct (existsb (startswith path) public_paths) eqn:Epub.
  { split; [intros _; left | reflexivity].
    apply existsb_exists in Epub. destruct Epub as (p & Hp & Hs).
    apply startswith_spec in Hs. destruct Hs as [rest ->]. now exists p, rest. }
  assert (Hnot : ~ exists p rest, In p public_paths /\ path = (p ++ rest)%string).
  { intros (p & rest & Hp & ->).
    assert (existsb (startswith (p ++ rest)%string) public_paths = true).
    { apply existsb_exists. exists p. split; [exact Hp|].
      apply startswith_spec. now exists rest. }
    congruence. }
  set (h := match authorization with Some h => h | None => EmptyString end).
  destruct (startswith h "Bearer ") eqn:E; simpl.
  - apply startswith_spec in E. destruct E as [given Hh].
    rewrite Hh.
    change ("Bearer " ++ given)%string with ("Bearer" ++ String " " given)%string.
    rewrite (split_space_word "Bearer" given eq_refl). simpl.
    destruct (split_space_head given) as (word & words & Hsplit & Hword & Hgiven).
    rewrite Hsplit. simpl.
    assert (Hauth : authorization = Some ("Bearer " ++ given)%string).
    { destruct authorization as [a|]; unfold h in Hh; [now rewrite Hh|].
      discriminate Hh. }
    destruct token as [t|].
    + destruct (String.eqb word t) eqn:Et.
      * apply String.eqb_eq in Et. subst t.
        split; [intros _; right | reflexivity].
        exists word. split; [reflexivity|]. split; [exact Hword|].
        destruct Hgiven as [-> | [rest ->]]; [now left | right; now exists rest].
      * split; [discriminate|]. intros [Hp | (t' & Ht & Hsp & Ha)]; [tauto|].
        inversion Ht; subst t'. apply String.eqb_neq in Et. exfalso. apply Et.
        rewrite Hauth in Ha.
        destruct Ha as [Ha | [rest Ha]]; inversion Ha as [Hg]; clear Ha.
        -- apply (f_equal split_space) in Hg.
           rewrite Hsplit, (split_space_last t Hsp) in Hg. now inversion Hg.
        -- apply (f_equal split_space) in Hg.
           rewrite Hsplit, (split_space_word t rest Hsp) in Hg. now inversion Hg.
    + split; [discriminate|]. intros [Hp | (t' & Ht & _)]; [tauto | discriminate].
  - split; [discriminate|]. intros [Hp | (t & _ & _ & Ha)]; [tauto|].
    assert (startswith h "Bearer " = true); [|congruence].
    apply startswith_spec. unfold h.
    destruct Ha as [-> | [rest ->]]; eexists; reflexivity.
Qed.

(** X7: the hook never raises: the second piece of the header is read only
    when the header starts with "Bearer ", and then it exists.  It lets the
    request through or answers 401. *)
Theorem token_check_never_raises (path : string) (authorization token : option string) :
  require_token_globally path authorization token = Continue \/
  require_token_globally path authorization token = Respond unauthorized.
Proof. apply hook_decides. Qed.

(** X8: the hook lets a request through exactly when its path starts with
    one of the public paths, or the token is configured and the header is
    "Bearer ", the token (which holds no space), and then nothing or a space
    followed by anything.  In particular nothing passes on a protected path
    while the token is not configured, or if the configured token holds a
    space. *)
Theorem token_check_characterised (path : string) (authorization token : option string) :
  require_token_globally path authorization token = Continue <->
  (exists p rest, In p public_paths /\ path = (p ++ rest)%string) \/
  (exists t, token = Some t /\ spaceless t = true /\
     (authorization = Some ("Bearer " ++ t)%string \/
      exists rest, authorization = Some ("Bearer " ++ t ++ String " " rest)%string)).
Proof. apply hook_continue_iff. Qed.

(** ** The handlers that build their request *)



Section BuilderFacts.

Variable D : Desk.
Variable py_int : value -> Exn + Z.
Variable py_float : value -> Exn + float.


(** X11: a ticket for which the terminal lists no position is answered 404
    with the ticket in the message, after the one lookup: no order is
    sent. *)
Theorem modify_sl_tp_not_found (d : list (string * value)) (given : value)
    (t : Z) (sl tp : float) (s : Session D) (d1 : dstate D)
    (listed : option (list TradePosition)) :
  dict_get "position" d = Some given ->
  py_int given = inr t ->
  py_float (py_or (match dict_get "sl" d with Some v => v | None => VFloat 0%float end)
                  (VFloat 0%float)) = inr sl ->
  py_float (py_or (match dict_get "tp" d with Some v => v | None => VFloat 0%float end)
                  (VFloat 0%float)) = inr tp ->
  desk_positions_get D t (desk s) = (listed, d1) ->
  listed = None \/ listed = Some [] ->
  modify_sl_tp_endpoint D py_int py_float (VDict d) s =
  (jsonify (error_body (String.append "Position with ticket "
                          (String.append (str_int t) " not found."))) 404,
   {| desk := d1; ops := ops s ++ [OPositionsGet t] |}).
Proof.
  intros Hd Hi Hsl Htp Hget Hnone.
  assert (Ht : truthy (VDict d) = true) by (destruct d; [discriminate | reflexivity]).
  unfold modify_sl_tp_endpoint, handler, level_or_zero, then_, attempt, leave, go,
    consult, py_in, py_get, subscript.
  rewrite Ht, Hd, Hi, Hsl, Htp. cbn [negb]. cbv beta iota. rewrite Hget.
  destruct Hnone as [-> | ->]; reflexivity.
Qed.

(** X12: a stop loss that the body leaves out, or gives as null, 0, 0.0, false
    or an empty string, list or object, is sent as 0.0, which removes the
    stop loss of the position; the take profit is handled alike.  So a
    body that names only one of the two levels removes the other. *)
Theorem modify_sl_tp_omitted_level_is_zero (d : list (string * value))
    (given : value) (t : Z) (tp : float) (s : Session D) (d1 : dstate D)
    (p : TradePosition) (rest : list TradePosition) :
  (forall x, py_float (VFloat x) = inr x) ->
  dict_get "position" d = Some given ->
  py_int given = inr t ->
  dict_get "sl" d = None \/ (exists v, dict_get "sl" d = Some v /\ truthy v = false) ->
  py_float (py_or (match dict_get "tp" d with Some v => v | None => VFloat 0%float end)
                  (VFloat 0%float)) = inr tp ->
  desk_positions_get D t (desk s) = (Some (p :: rest), d1) ->
  exists tail,
    ops (snd (modify_sl_tp_endpoint D py_int py_float (VDict d) s)) =
    ops s ++ [OPositionsGet t;
              OOrderSend [("action", VInt more.TRADE_ACTION_SLTP);
                          ("position", VInt t); ("symbol", VStr (pos_symbol p));
                          ("sl", VFloat 0%float); ("tp", VFloat tp)]] ++ tail.
Proof.
  intros Hfloat Hd Hi Hsl Htp Hget.
  assert (Ht : truthy (VDict d) = true) by (destruct d; [discriminate | reflexivity]).
  assert (Hzero : py_float (py_or (match dict_get "sl" d with
                                   | Some v => v | None => VFloat 0%float end)
                                  (VFloat 0%float)) = inr 0%float).
  { destruct Hsl as [-> | (v & -> & Hv)]; unfold py_or.
    - simpl. apply Hfloat.
    - rewrite Hv. apply Hfloat. }
  unfold modify_sl_tp_endpoint, handler, level_or_zero, reply_response, then_,
    attempt, leave, go, consult, py_in, py_get, subscript.
  rewrite Ht, Hd, Hi, Hzero, Htp. cbn [negb]. cbv beta iota. rewrite Hget.
  cbv beta iota. cbn [desk ops].
  destruct (desk_order_send D _ d1) as [[r|] d2]; cbv beta iota.
  - destruct (negb (retcode r =? mt5.TRADE_RETCODE_DONE)); simpl;
      exists []; rewrite <- app_assoc; reflexivity.
  - cbn [desk ops]. destruct (desk_last_error D d2) as [e d3]. simpl.
    exists [OLastError]. rewrite <- !app_assoc. reflexivity.
Qed.

End BuilderFacts.



Section OrderFacts.

Variable D : Desk.
Variable py_float : value -> Exn + float.

(** A step that makes no call and can only leave with a 400. *)
Definition quiet {A : Type} (m : H D A) : Prop :=
  forall s, snd (m s) = s /\ (forall r, fst (m s) = Return r -> status r = 400).

(** A step that fetches at most one quote, and nothing else. *)
Definition quoting {A : Type} (m : H D A) : Prop :=
  forall s,
    (snd (m s) = s \/
     exists y, ops (snd (m s)) = ops s ++ [OSymbolInfoTick y]) /\
    (forall r, fst (m s) = Return r -> status r = 400).

(** The end of a handler: where it leaves the log and the terminal for
    each way out.  [quoted] tells whether a quote precedes. *)
Definition ending (done : string) (m : H D Response) : Prop :=
  forall s, exists new,
    ops (snd (m s)) = ops s ++ new /\
    match fst (m s) with
    | Go r =>
        status r = 200 /\
        exists req res d0,
          new = [OOrderSend req] /\
          desk_order_send D req d0 = (Some res, desk (snd (m s))) /\
          retcode res = mt5.TRADE_RETCODE_DONE /\
          body r = VDict [("message", VStr done); ("result", asdict res)]
    | Return r => status r = 400 /\ (count_sends new <= 1)%nat
    | Raise _ => new = []
    end.

Lemma quiet_attempt {A : Type} (x : Exn + A) : quiet (attempt D x).
Proof. intros s. unfold attempt. simpl. split; [reflexivity|]. now destruct x. Qed.

Lemma quiet_go {A : Type} (a : A) : quiet (go D a).
Proof. intros s. unfold go. simpl. split; [reflexivity | discriminate]. Qed.

Lemma quiet_leave {A : Type} (r : Response) : status r = 400 -> quiet (@leave D A r).
Proof.
  intros H s. unfold leave. simpl. split; [reflexivity|].
  intros r' Hr. inversion Hr. subst. exact H.
Qed.

Lemma quiet_then {A B : Type} (m : H D A) (k : A -> H D B) :
  quiet m -> (forall a, quiet (k a)) -> quiet (then_ D m k).
Proof.
  intros Hm Hk s. unfold then_. destruct (Hm s) as [Hs Hr].
  destruct (m s) as [[a|r|e] s']; simpl in *; subst s'.
  - apply Hk.
  - split; [reflexivity|]. intros r' H. inversion H; subst. now apply Hr.
  - split; [reflexivity | discriminate].
Qed.

Lemma quiet_if {A : Type} (c : bool) (x y : H D A) :
  quiet x -> quiet y -> quiet (if c then x else y).
Proof. now destruct c. Qed.

Lemma quoting_quiet {A : Type} (m : H D A) : quiet m -> quoting m.
Proof. intros Hm s. destruct (Hm s) as [Hs Hr]. split; [now left | exact Hr]. Qed.

Lemma quoting_then {A B : Type} (m : H D A) (k : A -> H D B) :
  quiet m -> (forall a, quoting (k a)) -> quoting (then_ D m k).
Proof.
  intros Hm Hk s. unfold then_. destruct (Hm s) as [Hs Hr].
  destruct (m s) as [[a|r|e] s']; simpl in *; subst s'.
  - apply Hk.
  - split; [now left|]. intros r' H. inversion H; subst. now apply Hr.
  - split; [now left | discriminate].
Qed.

Lemma quoting_tick {B : Type} (y : value) (k : option Tick -> H D B) :
  (forall a, quiet (k a)) ->
  quoting (then_ D (consult D (OSymbolInfoTick y) (desk_symbol_info_tick D y)) k).
Proof.
  intros Hk s. unfold then_, consult.
  destruct (desk_symbol_info_tick D y (desk s)) as [a d1].
  destruct (Hk a {| desk := d1; ops := ops s ++ [OSymbolInfoTick y] |}) as [Hs Hr].
  split; [|exact Hr]. right. exists y. now rewrite Hs.
Qed.

Lemma quoting_if {A : Type} (c : bool) (x y : H D A) :
  quoting x -> quoting y -> quoting (if c then x else y).
Proof. now destruct c. Qed.

Lemma quiet_optional_level (data : value) (key : string)
    (request_data : list (string * value)) :
  quiet (optional_level D py_float data key request_data).
Proof.
  unfold optional_level.
  apply quiet_then; [apply quiet_attempt | intros present].
  apply quiet_if; [apply quiet_go|].
  apply quiet_then; [apply quiet_attempt | intros given].
  apply quiet_if; [apply quiet_go|].
  apply quiet_then; [apply quiet_attempt | intros x]. apply quiet_go.
Qed.

(** Sending the request and reading the reply. *)
Lemma ending_send (no_result failed done : string) (req : list (string * value)) :
  ending done
    (then_ D (consult D (OOrderSend req) (desk_order_send D req))
       (reply_response D no_result failed done)).
Proof.
  intros s. unfold then_, consult, reply_response, then_, consult, leave, go.
  destruct (desk_order_send D req (desk s)) as [[r|] d1] eqn:E; cbn [desk ops].
  - destruct (negb (retcode r =? mt5.TRADE_RETCODE_DONE)) eqn:Er; simpl.
    + exists [OOrderSend req]. split; [reflexivity|]. split; [reflexivity|].
      cbv; lia.
    + apply negb_false_iff, Z.eqb_eq in Er.
      exists [OOrderSend req]. split; [reflexivity|]. split; [reflexivity|].
      exists req, r, (desk s). auto.
  - destruct (desk_last_error D d1) as [e d2]. simpl.
    exists [OOrderSend req; OLastError]. split; [now rewrite <- app_assoc|].
    split; [reflexivity | cbv; lia].
Qed.

Lemma ending_leave (done : string) (r : Response) :
  status r = 400 -> ending done (leave D r).
Proof.
  intros H s. exists []. unfold leave. simpl. rewrite app_nil_r.
  split; [reflexivity|]. split; [exact H | cbv; lia].
Qed.

Lemma ending_if (done : string) (c : bool) (x y : H D Response) :
  ending done x -> ending done y -> ending done (if c then x else y).
Proof. now destruct c. Qed.

Lemma ending_then {A : Type} (done : string) (m : H D A) (k : A -> H D Response) :
  quiet m -> (forall a, ending done (k a)) -> ending done (then_ D m k).
Proof.
  intros Hm Hk s. unfold then_. destruct (Hm s) as [Hs Hr].
  destruct (m s) as [[a|r|e] s']; simpl in *; subst s'.
  - apply Hk.
  - exists []. rewrite app_nil_r. split; [reflexivity|].
    split; [now apply Hr | cbv; lia].
  - exists []. rewrite app_nil_r. now split.
Qed.

(** The same with at most one quote fetched before the order. *)
Definition ending_after_quote (done : string) (m : H D Response) : Prop :=
  forall s, exists new,
    ops (snd (m s)) = ops s ++ new /\
    match fst (m s) with
    | Go r =>
        status r = 200 /\
        exists req res d0,
          (new = [OOrderSend req] \/
           exists y, new = [OSymbolInfoTick y; OOrderSend req]) /\
          desk_order_send D req d0 = (Some res, desk (snd (m s))) /\
          retcode res = mt5.TRADE_RETCODE_DONE /\
          body r = VDict [("message", VStr done); ("result", asdict res)]
    | Return r => status r = 400 /\ (count_sends new <= 1)%nat
    | Raise _ => count_sends new = 0%nat
    end.

Lemma after_quote_leave (done : string) (r : Response) :
  status r = 400 -> ending_after_quote done (leave D r).
Proof.
  intros H s. exists []. unfold leave. simpl. rewrite app_nil_r.
  split; [reflexivity|]. split; [exact H | cbv; lia].
Qed.

Lemma after_quote_if (done : string) (c : bool) (x y : H D Response) :
  ending_after_quote done x -> ending_after_quote done y ->
  ending_after_quote done (if c then x else y).
Proof. now destruct c. Qed.

Lemma after_quote_then {A : Type} (done : string) (m : H D A)
    (k : A -> H D Response) :
  quiet m -> (forall a, ending_after_quote done (k a)) ->
  ending_after_quote done (then_ D m k).
Proof.
  intros Hm Hk s. unfold then_. destruct (Hm s) as [Hs Hr].
  destruct (m s) as [[a|r|e] s']; simpl in *; subst s'.
  - apply Hk.
  - exists []. rewrite app_nil_r. split; [reflexivity|].
    split; [now apply Hr | cbv; lia].
  - exists []. rewrite app_nil_r. now split.
Qed.

Lemma after_quote_prefix {A : Type} (done : string) (m : H D A)
    (k : A -> H D Response) :
  quoting m -> (forall a, ending done (k a)) ->
  ending_after_quote done (then_ D m k).
Proof.
  intros Hm Hk s. unfold then_. destruct (Hm s) as [Hs Hr].
  destruct (m s) as [[a|r|e] s'] eqn:E; simpl in *.
  - destruct (Hk a s') as (new & Hlog & Hcase).
    destruct Hs as [-> | [y Hy]].
    + exists new. split; [exact Hlog|].
      destruct (fst (k a s)) as [r|r|e]; try exact Hcase.
      * destruct Hcase as (H200 & req & res & d0 & -> & Hrest).
        split; [exact H200|]. exists req, res, d0. split; [now left | exact Hrest].
      * now subst new.
    + exists (OSymbolInfoTick y :: new).
      split; [rewrite Hlog, Hy, <- app_assoc; reflexivity|].
      destruct (fst (k a s')) as [r|r|e].
      * destruct Hcase as (H200 & req & res & d0 & -> & Hrest).
        split; [exact H200|]. exists req, res, d0.
        split; [right; now exists y | exact Hrest].
      * destruct Hcase as [H400 Hc]. split; [exact H400|].
        unfold count_sends in *. simpl. exact Hc.
      * now subst new.
  - destruct Hs as [-> | [y Hy]].
    + exists []. rewrite app_nil_r. split; [reflexivity|].
      split; [now apply Hr | cbv; lia].
    + exists [OSymbolInfoTick y]. split; [exact Hy|].
      split; [now apply Hr | cbv; lia].
  - destruct Hs as [-> | [y Hy]].
    + exists []. rewrite app_nil_r. now split.
    + exists [OSymbolInfoTick y]. now split.
Qed.

(** X13: [send_order_endpoint] sends at most one order per request and none
    when it answers 500.  It answers 200 only after it has sent one order,
    preceded by at most the quote of the symbol, and the terminal has
    replied "done"; the body then carries that reply.  Its status is 200,
    400 or 500. *)
Theorem send_order_discipline (data : value) (s : Session D) :
  exists new,
    ops (snd (send_order_endpoint D py_float data s)) = ops s ++ new /\
    (count_sends new <= 1)%nat /\
    (status (fst (send_order_endpoint D py_float data s)) = 500 ->
     count_sends new = 0%nat) /\
    (status (fst (send_order_endpoint D py_float data s)) = 200 ->
     exists req res d0,
       (new = [OOrderSend req] \/
        exists symbol, new = [OSymbolInfoTick symbol; OOrderSend req]) /\
       desk_order_send D req d0 =
         (Some res, desk (snd (send_order_endpoint D py_float data s))) /\
       retcode res = mt5.TRADE_RETCODE_DONE /\
       body (fst (send_order_endpoint D py_float data s)) =
         VDict [("message", VStr "Order executed successfully");
                ("result", asdict res)]) /\
    (status (fst (send_order_endpoint D py_float data s)) = 200 \/
     status (fst (send_order_endpoint D py_float data s)) = 400 \/
     status (fst (send_order_endpoint D py_float data s)) = 500).
Proof.
  unfold send_order_endpoint.
  match goal with
  | |- context [handler D ?b] =>
      assert (Hblock : ending_after_quote "Order executed successfully" b);
      [|set (block := b) in *]
  end.
  { apply after_quote_if; [now apply after_quote_leave|].
    apply after_quote_then; [apply quiet_attempt | intros complete].
    apply after_quote_if; [now apply after_quote_leave|].
    apply after_quote_then; [apply quiet_attempt | intros order_type_mt5].
    apply after_quote_if; [now apply after_quote_leave|].
    do 8 (apply after_quote_then; [apply quiet_attempt | intros ?]).
    cbv zeta. apply after_quote_prefix.
    - apply quoting_if.
      + apply quoting_then; [apply quiet_attempt | intros symbol].
        apply quoting_tick. intros [tick|];
          [apply quiet_go | now apply quiet_leave].
      + apply quoting_quiet.
        apply quiet_then; [apply quiet_attempt | intros priced].
        apply quiet_if; [now apply quiet_leave|].
        do 2 (apply quiet_then; [apply quiet_attempt | intros ?]).
        apply quiet_if; [|apply quiet_go].
        apply quiet_then; [apply quiet_attempt | intros limited].
        apply quiet_if; [now apply quiet_leave|].
        do 2 (apply quiet_then; [apply quiet_attempt | intros ?]).
        apply quiet_go.
    - intros request_data.
      apply ending_then; [apply quiet_optional_level | intros with_sl].
      apply ending_then; [apply quiet_optional_level | intros with_tp].
      apply ending_send. }
  unfold handler. destruct (Hblock s) as (new & Hlog & Hcase).
  destruct (block s) as [[r|r|e] s']; simpl in *; exists new;
    (split; [exact Hlog|]).
  - destruct Hcase as (H200 & req & res & d0 & Hnew & Hrest).
    split; [destruct Hnew as [-> | [y ->]]; cbv; lia|].
    split; [rewrite H200; discriminate|].
    split; [|now left]. intros _. now exists req, res, d0.
  - destruct Hcase as [H400 Hc]. split; [exact Hc|].
    split; [rewrite H400; discriminate|].
    split; [rewrite H400; discriminate | right; now left].
  - split; [rewrite Hcase; cbv; lia|]. split; [now intros _|].
    split; [discriminate | right; now right].
Qed.




End OrderFacts.

(** ** The batch handlers behind the token check *)

(** The header presents the token [t]. *)
Definition presents (authorization : option string) (t : string) : Prop :=
  authorization = Some ("Bearer " ++ t)%string \/
  exists rest, authorization = Some ("Bearer " ++ t ++ String " " rest)%string.

(** X9: the two batch-close routes are protected: a request whose header does
    not present the configured token is answered 401 and the terminal is
    not touched (so it is whenever no token is configured); a request that
    presents the configured token, which holds no space, gets the answer
    of the handler. *)
Theorem batch_close_behind_token (T : Terminal) (authorization token : option string)
    (magic : option Z) (sched order : list nat) (data : value) (w : World T) :
  ((forall t, token = Some t -> ~ presents authorization t) ->
   post_close_all_positions T authorization token magic sched order w =
     (unauthorized, w) /\
   post_close_positions_batch T authorization token data w = (unauthorized, w)) /\
  (forall t, token = Some t -> spaceless t = true -> presents authorization t ->
   post_close_all_positions T authorization token magic sched order w =
     close_all_positions_endpoint T magic sched order w /\
   post_close_positions_batch T authorization token data w =
     close_positions_batch_endpoint T data w).
Proof.
  assert (Hprivate : forall path,
            path = "/close_all_positions" \/ path = "/close_positions_batch" ->
            ~ exists p rest, In p public_paths /\ path = (p ++ rest)%string).
  { intros path Hpath (p & rest & Hp & Heq).
    assert (Hs : existsb (startswith path) public_paths = true).
    { apply existsb_exists. exists p. split; [exact Hp|].
      apply startswith_spec. now exists rest. }
    destruct Hpath as [-> | ->]; vm_compute in Hs; discriminate Hs. }
  unfold post_close_all_positions, post_close_positions_batch. split.
  - intros Hno.
    assert (Hhook : forall path,
              path = "/close_all_positions" \/ path = "/close_positions_batch" ->
              require_token_globally path authorization token = Respond unauthorized).
    { intros path Hpath.
      destruct (hook_decides path authorization token) as [Hc | Hr];
        [|exact Hr].
      apply hook_continue_iff in Hc.
      destruct Hc as [Hpub | (t & Ht & Hsp & Ha)].
      - exfalso. now apply (Hprivate path Hpath).
      - exfalso. now apply (Hno t Ht). }
    rewrite (Hhook _ (or_introl eq_refl)), (Hhook _ (or_intror eq_refl)).
    split; reflexivity.
  - intros t Ht Hsp Ha.
    assert (Hhook : forall path,
              require_token_globally path authorization token = Continue).
    { intros path. apply hook_continue_iff. right. now exists t. }
    rewrite !Hhook. split; reflexivity.
Qed.

(** * The further properties on the demo terminal *)


Lemma batch_rejects_before_any_call_witness :
  let w := Demo.boot (Demo.account [Demo.buy 101 0 "EURUSD"]) in
  close_positions_batch_endpoint Demo.terminal (VList [VStr "tickets"; VInt 101]) w =
    (jsonify (error_body "Internal server error") 500, w) /\
  close_positions_batch_endpoint Demo.terminal (VDict [("tickets", VInt 101)]) w =
    (jsonify (error_body "A JSON array of 'tickets' is required.") 400, w).
Proof.
  cbv zeta.
  set (w := Demo.boot (Demo.account [Demo.buy 101 0 "EURUSD"])).
  split.
  - destruct (batch_rejects_before_any_call Demo.terminal
                (VList [VStr "tickets"; VInt 101]) w) as (r & Hr & _ & H500).
    + intros d tickets Hd. discriminate Hd.
    + rewrite Hr. f_equal.
      assert (Hs : status r = 500) by (apply H500; reflexivity).
      vm_compute in Hr. now inversion Hr.
  - destruct (batch_rejects_before_any_call Demo.terminal
                (VDict [("tickets", VInt 101)]) w) as (r & Hr & _ & _).
    + intros d tickets Hd. inversion Hd; subst. discriminate.
    + rewrite Hr. f_equal. vm_compute in Hr. now inversion Hr.
Defined.


Lemma close_all_initialize_failure_witness :
  let s := {| Demo.connected := false; Demo.listing := true; Demo.link := true;
              Demo.open_positions := [Demo.buy 101 0 "EURUSD"];
              Demo.quotes := [("EURUSD", Demo.eurusd)]; Demo.refused := [];
              Demo.error_text := "(-6, 'Authorization failed')" |} in
  close_all_positions_endpoint Demo.terminal None [] [] (Demo.boot s) =
  (jsonify (error_body "MT5 initialize failed: (-6, 'Authorization failed')") 500,
   Build_World Demo.terminal s [CInitialize; CLastError]).
Proof.
  cbv zeta.
  set (s := {| Demo.connected := false; Demo.listing := true; Demo.link := true;
               Demo.open_positions := [Demo.buy 101 0 "EURUSD"];
               Demo.quotes := [("EURUSD", Demo.eurusd)]; Demo.refused := [];
               Demo.error_text := "(-6, 'Authorization failed')" |}).
  apply (close_all_initialize_failure Demo.terminal None [] [] (Demo.boot s) s).
  reflexivity.
Defined.

Lemma closed_tickets_were_ordered_witness :
  let ps := [Demo.buy 101 0 "EURUSD"; Demo.buy 104 0 "GBPUSD"] in
  let w := Demo.boot (Demo.account ps) in
  exists acc w' mid,
    close_all_positions_endpoint Demo.terminal None [1; 0]%nat [] w =
      (jsonify (report_body acc) 200, w') /\
    calls w' = calls w ++ [CInitialize; CPositionsGet] ++ mid ++ [CShutdown] /\
    Forall (ordered mid) (closed acc).
Proof.
  cbv zeta.
  apply (closed_tickets_were_ordered Demo.terminal None [1; 0]%nat [] _
           (Demo.account [Demo.buy 101 0 "EURUSD"; Demo.buy 104 0 "GBPUSD"])
           (Demo.account [Demo.buy 101 0 "EURUSD"; Demo.buy 104 0 "GBPUSD"])
           [Demo.buy 101 0 "EURUSD"; Demo.buy 104 0 "GBPUSD"]);
    [reflexivity | reflexivity | discriminate].
Defined.

Lemma close_all_conserves_items_witness :
  let ps := [Demo.buy 101 0 "EURUSD"; Demo.buy 104 0 "GBPUSD"] in
  let w := Demo.boot (Demo.account ps) in
  exists acc w',
    close_all_positions_endpoint Demo.terminal None [1; 0]%nat [1%nat] w =
      (jsonify (report_body acc) 200, w') /\
    Permutation (closed acc ++ map ticket_of (failed acc)) [VInt 101; VInt 104] /\
    (length (closed acc) + length (failed acc) = 2)%nat.
Proof.
  cbv zeta.
  apply (close_all_conserves_items Demo.terminal None [1; 0]%nat [1%nat] _
           (Demo.account [Demo.buy 101 0 "EURUSD"; Demo.buy 104 0 "GBPUSD"])
           (Demo.account [Demo.buy 101 0 "EURUSD"; Demo.buy 104 0 "GBPUSD"])
           [Demo.buy 101 0 "EURUSD"; Demo.buy 104 0 "GBPUSD"]);
    [reflexivity | reflexivity | discriminate].
Defined.

Lemma batch_close_behind_token_witness :
  let w := Demo.boot (Demo.account [Demo.buy 101 0 "EURUSD"]) in
  let body := Demo.tickets_body [101] in
  (post_close_all_positions Demo.terminal (Some "Bearer guess") (Some "s3cret")
     None [] [] w = (unauthorized, w) /\
   post_close_positions_batch Demo.terminal (Some "Bearer guess") (Some "s3cret")
     body w = (unauthorized, w)) /\
  (post_close_all_positions Demo.terminal (Some "Bearer s3cret and more")
     (Some "s3cret") None [] [] w =
     close_all_positions_endpoint Demo.terminal None [] [] w /\
   post_close_positions_batch Demo.terminal (Some "Bearer s3cret and more")
     (Some "s3cret") body w =
     close_positions_batch_endpoint Demo.terminal body w).
Proof.
  cbv zeta.
  set (w := Demo.boot (Demo.account [Demo.buy 101 0 "EURUSD"])).
  destruct (batch_close_behind_token Demo.terminal (Some "Bearer guess")
              (Some "s3cret") None [] [] (Demo.tickets_body [101]) w) as [Hno _].
  destruct (batch_close_behind_token Demo.terminal (Some "Bearer s3cret and more")
              (Some "s3cret") None [] [] (Demo.tickets_body [101]) w) as [_ Hyes].
  split.
  - apply Hno.
    intros t Ht [Ha | [rest Ha]]; inversion Ht; subst t; discriminate Ha.
  - apply (Hyes "s3cret"); [reflexivity | reflexivity |].
    right. exists "and more". reflexivity.
Defined.

Lemma modify_sl_tp_not_found_witness :
  let s := DemoDesk.open (Demo.account [Demo.buy 101 0 "EURUSD"]) in
  modify_sl_tp_endpoint DemoDesk.desk DemoDesk.to_int DemoDesk.to_float
    (VDict [("position", VInt 7); ("tp", VFloat 1.2%float)]) s =
  (jsonify (error_body "Position with ticket 7 not found.") 404,
   Build_Session DemoDesk.desk (Demo.account [Demo.buy 101 0 "EURUSD"])
     [OPositionsGet 7]).
Proof.
  cbv zeta.
  exact (modify_sl_tp_not_found DemoDesk.desk DemoDesk.to_int DemoDesk.to_float
           [("position", VInt 7); ("tp", VFloat 1.2%float)] (VInt 7) 7
           0%float 1.2%float
           (DemoDesk.open (Demo.account [Demo.buy 101 0 "EURUSD"]))
           (Demo.account [Demo.buy 101 0 "EURUSD"]) (Some [])
           eq_refl eq_refl eq_refl eq_refl eq_refl (or_intror eq_refl)).
Defined.

Lemma modify_sl_tp_omitted_level_is_zero_witness :
  let s := DemoDesk.open (Demo.account [Demo.buy 101 0 "EURUSD"]) in
  exists tail,
    ops (snd (modify_sl_tp_endpoint DemoDesk.desk DemoDesk.to_int DemoDesk.to_float
                (VDict [("position", VInt 101); ("tp", VFloat 1.2%float)]) s)) =
    [OPositionsGet 101;
     OOrderSend [("action", VInt 6); ("position", VInt 101);
                 ("symbol", VStr "EURUSD"); ("sl", VFloat 0%float);
                 ("tp", VFloat 1.2%float)]] ++ tail.
Proof.
  cbv zeta.
  exact (modify_sl_tp_omitted_level_is_zero DemoDesk.desk DemoDesk.to_int
           DemoDesk.to_float [("position", VInt 101); ("tp", VFloat 1.2%float)]
           (VInt 101) 101 1.2%float
           (DemoDesk.open (Demo.account [Demo.buy 101 0 "EURUSD"]))
           (Demo.account [Demo.buy 101 0 "EURUSD"]) (Demo.buy 101 0 "EURUSD") []
           (fun x => eq_refl) eq_refl eq_refl (or_introl eq_refl) eq_refl eq_refl).
Defined.




Lemma send_order_discipline_witness :
  let s := DemoDesk.open (Demo.account []) in
  let data := VDict [("symbol", VStr "EURUSD"); ("volume", VFloat 0.1%float);
                     ("type", VInt 1)] in
  let answer := send_order_endpoint DemoDesk.desk DemoDesk.to_float data s in
  status (fst answer) = 200 /\
  exists new req res,
    ops (snd answer) = ops s ++ new /\
    (new = [OOrderSend req] \/
     exists symbol, new = [OSymbolInfoTick symbol; OOrderSend req]) /\
    retcode res = mt5.TRADE_RETCODE_DONE /\
    body (fst answer) =
      VDict [("message", VStr "Order executed successfully"); ("result", asdict res)].
Proof.
  cbv zeta.
  destruct (send_order_discipline DemoDesk.desk DemoDesk.to_float
              (VDict [("symbol", VStr "EURUSD"); ("volume", VFloat 0.1%float);
                      ("type", VInt 1)])
              (DemoDesk.open (Demo.account [])))
    as (new & Hlog & _ & _ & H200 & _).
  split; [reflexivity|].
  destruct (H200 eq_refl) as (req & res & d0 & Hnew & _ & Hdone & Hbody).
  exists new, req, res. repeat split; assumption.
Defined.
